(** * The prompt version-control commands of the Mirascope CLI

    A shallow embedding of [mirascope/cli/commands/use.py] (the [use]
    command and its shell-completion helpers) together with the companion
    [add] command, over an explicit model of the file system, of standard
    output and of the order in which the commands touch their
    collaborators. The message conversion of the Cohere provider,
    [mirascope/core/cohere/_utils/convert_message_params.py], follows.

    The helpers that [use.py] imports from [mirascope.cli.utils] and
    [mirascope.cli.constants] are an interface of the development
    ([CliUtils]): the commands are written against it, and what a theorem
    needs to know about a helper is a named hypothesis of that theorem. *)

From Stdlib Require Import String Ascii List Arith Lia.
From stdpp Require Import base option gmap strings list fin_maps.

Local Open Scope string_scope.
Local Open Scope list_scope.

(* ===================================================================== *)
(** ** Python strings *)
(* ===================================================================== *)

Module Py.

Definition TAB : ascii := ascii_of_nat 9.
Definition LF : ascii := ascii_of_nat 10.
Definition CR : ascii := ascii_of_nat 13.
Definition SPACE : ascii := ascii_of_nat 32.
Definition SEP : ascii := ascii_of_nat 47.

(** [bool(s)] for a [str]: the empty string is falsy. *)
Definition truthy (s : string) : bool :=
  match s with
  | EmptyString => false
  | String _ _ => true
  end.

(** [bool(o)] for an [Optional[str]]: [None] and [""] are falsy. *)
Definition truthy_opt (o : option string) : bool :=
  match o with
  | None => false
  | Some s => truthy s
  end.

Fixpoint spaces (n : nat) : string :=
  match n with
  | O => EmptyString
  | S k => String SPACE (spaces k)
  end.

(** [str.expandtabs]: [col] is the current column; a tab advances to the
    next multiple of [tabsize], a line break resets the column. *)
Fixpoint expandtabs_from (tabsize col : nat) (s : string) : string :=
  match s with
  | EmptyString => EmptyString
  | String c rest =>
      if Ascii.eqb c TAB then
        if Nat.eqb tabsize 0 then expandtabs_from tabsize col rest
        else
          let incr := (tabsize - col mod tabsize)%nat in
          spaces incr +:+ expandtabs_from tabsize (col + incr)%nat rest
      else
        String c
          (expandtabs_from tabsize
             (if Ascii.eqb c LF || Ascii.eqb c CR then 0 else S col) rest)
  end.

Definition expandtabs (tabsize : nat) (s : string) : string :=
  expandtabs_from tabsize 0 s.

Fixpoint last_char (s : string) : option ascii :=
  match s with
  | EmptyString => None
  | String c EmptyString => Some c
  | String _ rest => last_char rest
  end.

Definition startswith_sep (s : string) : bool :=
  match s with
  | String c _ => Ascii.eqb c SEP
  | EmptyString => false
  end.

Definition endswith_sep (s : string) : bool :=
  match last_char s with
  | Some c => Ascii.eqb c SEP
  | None => false
  end.

(** [os.path.join(a, b)] of [posixpath]: an absolute [b] replaces [a];
    otherwise [b] is appended, after a separator unless [a] is empty or
    already ends in one. *)
Definition path_join (a b : string) : string :=
  if startswith_sep b then b
  else if negb (truthy a) || endswith_sep a then a +:+ b
  else a +:+ String SEP b.

(** The slices the completion helpers take of a snapshot file name
    [NNNN_<alias>.py]. *)

(** [file[:4]] *)
Definition slice_to_4 (file : string) : string := substring 0 4 file.

(** [file[5:-3]] *)
Definition slice_5_to_minus_3 (file : string) : string :=
  substring 5 (String.length file - 3 - 5)%nat file.

(** [needle in haystack] *)
Fixpoint contains (needle haystack : string) : bool :=
  String.prefix needle haystack
  || match haystack with
     | EmptyString => false
     | String _ rest => contains needle rest
     end.

End Py.

(* ===================================================================== *)
(** ** Revision numbers *)
(* ===================================================================== *)

(** Modelled from the spec: revision numbers are 4-digit, zero-padded,
    base-10 numerals. *)
Module Revision.

Definition digit_of_ascii (c : ascii) : option nat :=
  let n := nat_of_ascii c in
  if Nat.leb 48 n && Nat.leb n 57 then Some (n - 48)%nat else None.

Definition ascii_of_digit (d : nat) : ascii := ascii_of_nat (48 + d)%nat.

Fixpoint parse_from (acc : nat) (s : string) : option nat :=
  match s with
  | EmptyString => Some acc
  | String c rest =>
      match digit_of_ascii c with
      | Some d => parse_from (10 * acc + d)%nat rest
      | None => None
      end
  end.

(** [int(s)] on a string of decimal digits. *)
Definition parse (s : string) : option nat :=
  match s with
  | EmptyString => None
  | _ => parse_from 0 s
  end.

Fixpoint digits_from (fuel n : nat) (acc : string) : string :=
  match fuel with
  | O => acc
  | S fuel' =>
      let acc' := String (ascii_of_digit (n mod 10)%nat) acc in
      if Nat.eqb (n / 10)%nat 0 then acc' else digits_from fuel' (n / 10)%nat acc'
  end.

Definition decimal (n : nat) : string := digits_from (S n) n "".

Fixpoint zeros (n : nat) : string :=
  match n with
  | O => EmptyString
  | S k => String (ascii_of_digit 0) (zeros k)
  end.

(** [f"{n:04}"] *)
Definition format (n : nat) : string :=
  let d := decimal n in
  zeros (4 - String.length d)%nat +:+ d.

End Revision.

(* ===================================================================== *)
(** ** Data model *)
(* ===================================================================== *)

(** [MirascopeSettings], with the fields the tests construct it from. *)
Record MirascopeSettings := {
  mirascope_location : string;
  auto_tag : bool;
  version_file_name : string;
  prompts_location : string;
  versions_location : string
}.

(** [VersionTextFile]: the two fields of a prompt's pointer file. *)
Record VersionTextFile := {
  current_revision : option string;
  latest_revision : option string
}.

(** Modelled from the spec: the structured metadata Add injects into a
    snapshot (the revision it was derived from, and the tag when auto-tag
    is on). *)
Record SnapshotMetadata := {
  prev_revision : option string;
  tag : option string
}.

(** Modelled from the spec: the [MirascopeCommand] enum of
    [mirascope/enums.py], which is not part of the sources at hand; [use.py]
    names its member [USE], and [add] is the other command of the CLI
    surface. *)
Inductive MirascopeCommand := ADD | USE.

(** The exceptions the commands raise or let through. *)
Inductive PyError :=
| FileNotFoundError (msg : string)
| ValueError (msg : string)
| OtherError (kind msg : string).

Inductive Outcome (A : Type) :=
| Ok (a : A)
| Raise (e : PyError).
Arguments Ok {A} a.
Arguments Raise {A} e.

(** The file system: path to text content. Directories are not modelled;
    a path is present when a file lives there. *)
Abbreviation FS := (gmap string string).

(** What a command does to the outside, in order. *)
Inductive Event :=
| EvSettings
| EvCheckStatus (prompt : string)
| EvFindPromptPath (directory : string) (prefix : string)
| EvFindFileNames (directory : string)
| EvGetPromptVersions (path : string)
| EvOpenRead (path : string)
| EvOpenWrite (path : string)
| EvRender (command : MirascopeCommand)
| EvWrite (path : string) (content : string)
| EvFormat (path : string)
| EvUpdateVersionFile (path : string) (updates : list (string * string)).

Record World := {
  fs : FS;
  stdout : list string;
  trace : list Event
}.

Definition log (ev : Event) (w : World) : World :=
  {| fs := fs w; stdout := stdout w; trace := trace w ++ [ev] |}.

Definition with_fs (f : FS) (w : World) : World :=
  {| fs := f; stdout := stdout w; trace := trace w |}.

(* ===================================================================== *)
(** ** The command monad: world passing with exceptions *)
(* ===================================================================== *)

Definition Cmd (A : Type) : Type := World → Outcome A * World.

Definition ret {A} (a : A) : Cmd A := λ w, (Ok a, w).

Definition bind {A B} (m : Cmd A) (k : A → Cmd B) : Cmd B :=
  λ w, match m w with
       | (Ok a, w') => k a w'
       | (Raise e, w') => (Raise e, w')
       end.

Definition raise {A} (e : PyError) : Cmd A := λ w, (Raise e, w).

Declare Scope cmd_scope.
Delimit Scope cmd_scope with cmd.
Notation "x <~ m ;; k" := (bind m (λ x, k))
  (at level 100, m at next level, right associativity) : cmd_scope.
Notation "m ;;; k" := (bind m (λ _, k))
  (at level 100, right associativity) : cmd_scope.
Local Open Scope cmd_scope.

(** A read-only helper call. *)
Definition query {A} (ev : Event) (q : FS → Outcome A) : Cmd A :=
  λ w, (q (fs w), log ev w).

(** A helper call that may rewrite files. *)
Definition action (ev : Event) (a : FS → Outcome unit * FS) : Cmd unit :=
  λ w, let '(r, f) := a (fs w) in (r, with_fs f (log ev w)).

(** [print(line)] *)
Definition py_print (line : string) : Cmd unit :=
  λ w, (Ok tt, {| fs := fs w; stdout := stdout w ++ [line]; trace := trace w |}).

(** [open(path, "r").read()] *)
Definition open_read (path : string) : Cmd string :=
  λ w, match fs w !! path with
       | Some content => (Ok content, log (EvOpenRead path) w)
       | None =>
           (Raise (FileNotFoundError
                     ("[Errno 2] No such file or directory: '" +:+ path +:+ "'")),
            log (EvOpenRead path) w)
       end.

(** [open(path, "w+")]: the file is created or truncated on opening. *)
Definition open_write (path : string) : Cmd unit :=
  λ w, (Ok tt, with_fs (<[path := ""]> (fs w)) (log (EvOpenWrite path) w)).

(** [file.write(content)] on a file just opened with ["w+"], then closed. *)
Definition file_write (path content : string) : Cmd unit :=
  λ w, (Ok tt, with_fs (<[path := content]> (fs w)) (log (EvWrite path content) w)).

(* ===================================================================== *)
(** ** The helpers of [mirascope.cli.utils] and [mirascope.cli.constants] *)
(* ===================================================================== *)

(** The helpers [use.py] imports, with [get_prompt_versions] (which
    [test_add.py] patches in the add module), the second pointer-file key
    and the renderer of snapshots with metadata, which Add needs. Queries
    read the file system; the formatter and the pointer-file update may
    rewrite it. Each may raise. *)
Class CliUtils := {
  get_user_mirascope_settings : FS → Outcome MirascopeSettings;
  check_status : MirascopeSettings → string → FS → Outcome (option string);
  find_prompt_path : string → string → FS → Outcome (option string);
  find_file_names : string → FS → Outcome (list string);
  get_prompt_versions : string → FS → Outcome VersionTextFile;
  write_prompt_to_template : string → MirascopeCommand → FS → Outcome string;
  render_snapshot : string → SnapshotMetadata → FS → Outcome string;
  run_format_command : string → FS → Outcome unit * FS;
  update_version_text_file :
    string → list (string * string) → FS → Outcome unit * FS;
  CURRENT_REVISION_KEY : string;
  LATEST_REVISION_KEY : string
}.

Section Commands.

Context {U : CliUtils}.

(* ------------------------------------------------------------------- *)
(** *** [use.py] *)
(* ------------------------------------------------------------------- *)

(** [version_files]: the files in the prompt's versions directory. *)
Definition version_files (file_name : string) : Cmd (list string) :=
  mirascope_settings <~ query EvSettings get_user_mirascope_settings ;;
  let directory := Py.path_join (versions_location mirascope_settings) file_name in
  version_file_names <~ query (EvFindFileNames directory) (find_file_names directory) ;;
  ret version_file_names.

(** [ctx.params.get(key, "")] *)
Definition params_get (params : gmap string string) (key : string) : string :=
  default "" (params !! key).

(** [prompt_file_name]: completion of the alias argument; the aliases
    that differ from the prompt's name, then the revision numbers. *)
Definition prompt_file_name (params : gmap string string) : Cmd (list string) :=
  let file_name := params_get params "prompt_file_name" in
  all_files <~ version_files file_name ;;
  let unique_file_names :=
    List.map Py.slice_5_to_minus_3
      (List.filter
         (λ file, negb (String.eqb (Py.slice_5_to_minus_3 file) file_name))
         all_files) in
  let version_numbers := List.map Py.slice_to_4 all_files in
  ret (unique_file_names ++ version_numbers)%list.

(** [version_autocomplete]: completion of the version argument; the
    revision numbers of the files that carry the alias. *)
Definition version_autocomplete (params : gmap string string) : Cmd (list string) :=
  let file_name := params_get params "prompt_file_name" in
  let alias := params_get params "alias" in
  all_files <~ version_files file_name ;;
  let namespaced_files :=
    List.map Py.slice_to_4
      (List.filter
         (λ file, String.eqb (Py.slice_5_to_minus_3 file) alias)
         all_files) in
  ret namespaced_files.

(** Lines 97-98: [if not version: version = alias]. *)
Definition effective_version (alias : string) (version : option string) : string :=
  if Py.truthy_opt version then default "" version else alias.

(** [use_command]. The value is what the Python function returns: [None]
    on both of its exits. *)
Definition use_command (prompt_file_name alias : string) (version : option string)
  : Cmd (option string) :=
  let version := effective_version alias version in
  mirascope_settings <~ query EvSettings get_user_mirascope_settings ;;
  used_prompt_path <~
    query (EvCheckStatus prompt_file_name)
          (check_status mirascope_settings prompt_file_name) ;;
  if Py.truthy_opt used_prompt_path then
    py_print "Changes detected, please add or remove changes first." ;;;
    py_print (Py.expandtabs 4 (String Py.TAB ("mirascope add " +:+ prompt_file_name))) ;;;
    ret None
  else
    let version_directory_path := versions_location mirascope_settings in
    let prompt_directory_path := prompts_location mirascope_settings in
    let version_file_name := version_file_name mirascope_settings in
    let prompt_versions_directory :=
      Py.path_join version_directory_path prompt_file_name in
    revision_file_path <~
      query (EvFindPromptPath prompt_versions_directory version)
            (find_prompt_path prompt_versions_directory version) ;;
    let version_file_path :=
      Py.path_join prompt_versions_directory version_file_name in
    match revision_file_path with
    | None =>
        raise (FileNotFoundError
                 ("Prompt version " +:+ version +:+ " not found in "
                  +:+ prompt_versions_directory))
    | Some revision_file_path =>
        content <~ open_read revision_file_path ;;
        let prompt_file_path :=
          Py.path_join prompt_directory_path (prompt_file_name +:+ ".py") in
        open_write prompt_file_path ;;;
        rendered <~ query (EvRender USE) (write_prompt_to_template content USE) ;;
        file_write prompt_file_path rendered ;;;
        (if Py.truthy prompt_file_path
         then action (EvFormat prompt_file_path) (run_format_command prompt_file_path)
         else ret tt) ;;;
        let keys_to_update := [(CURRENT_REVISION_KEY, version)] in
        action (EvUpdateVersionFile version_file_path keys_to_update)
               (update_version_text_file version_file_path keys_to_update) ;;;
        py_print ("Using " +:+ revision_file_path) ;;;
        ret None
    end.

(* ------------------------------------------------------------------- *)
(** *** [add] *)
(* ------------------------------------------------------------------- *)

(** [os.path.exists(path)] *)
Definition path_exists (path : string) : Cmd bool :=
  λ w, (Ok (bool_decide (is_Some (fs w !! path))), w).

(** Modelled from the spec: the revision that follows the latest one,
    [0001] on a fresh pointer file; a latest revision that is not a
    number is a [ValueError]. *)
Definition next_revision (latest : option string) : Cmd string :=
  match latest with
  | None => ret "0001"
  | Some latest_revision_id =>
      match Revision.parse latest_revision_id with
      | Some n => ret (Revision.format (n + 1)%nat)
      | None =>
          raise (ValueError
                   ("invalid literal for int() with base 10: '"
                    +:+ latest_revision_id +:+ "'"))
      end
  end.

(** Modelled from the spec: [add_command] of
    [mirascope/cli/commands/add.py], of which only the tests are at hand.
    The status check comes first, as [test_add_no_changes] shows (a
    prompt that does not exist, a status check patched to [None], and the
    output is the no-changes message); then the working prompt must
    exist; then steps 1 to 5 of the Add algorithm. The value is the new
    revision, [None] on the no-changes exit. *)
Definition add_command (prompt_file_name : string) : Cmd (option string) :=
  mirascope_settings <~ query EvSettings get_user_mirascope_settings ;;
  used_prompt_path <~
    query (EvCheckStatus prompt_file_name)
          (check_status mirascope_settings prompt_file_name) ;;
  if negb (Py.truthy_opt used_prompt_path) then
    py_print "No changes detected." ;;;
    ret None
  else
    let prompt_file_path :=
      Py.path_join (prompts_location mirascope_settings) (prompt_file_name +:+ ".py") in
    let class_directory :=
      Py.path_join (versions_location mirascope_settings) prompt_file_name in
    found <~ path_exists prompt_file_path ;;
    if negb found then
      raise (FileNotFoundError
               ("Prompt " +:+ prompt_file_name +:+ ".py not found in "
                +:+ prompts_location mirascope_settings))
    else
      (* 1. resolve the pointer file, compute the next revision *)
      let version_file_path :=
        Py.path_join class_directory (version_file_name mirascope_settings) in
      versions <~
        query (EvGetPromptVersions version_file_path)
              (get_prompt_versions version_file_path) ;;
      revision_id <~ next_revision (latest_revision versions) ;;
      (* 2. read the working prompt, inject the version metadata *)
      prompt_file <~ open_read prompt_file_path ;;
      let variables :=
        {| prev_revision := current_revision versions;
           tag := if auto_tag mirascope_settings
                  then Some ("version:" +:+ revision_id) else None |} in
      (* 3. write the new snapshot *)
      let revision_file :=
        Py.path_join class_directory
          (revision_id +:+ "_" +:+ prompt_file_name +:+ ".py") in
      open_write revision_file ;;;
      snapshot <~ query (EvRender ADD) (render_snapshot prompt_file variables) ;;
      file_write revision_file snapshot ;;;
      (* 4. update the pointer file *)
      let keys_to_update :=
        [(CURRENT_REVISION_KEY, revision_id); (LATEST_REVISION_KEY, revision_id)] in
      action (EvUpdateVersionFile version_file_path keys_to_update)
             (update_version_text_file version_file_path keys_to_update) ;;;
      (* 5. re-render the working prompt from the new snapshot *)
      open_write prompt_file_path ;;;
      rendered <~ query (EvRender USE) (write_prompt_to_template snapshot USE) ;;
      file_write prompt_file_path rendered ;;;
      action (EvFormat prompt_file_path) (run_format_command prompt_file_path) ;;;
      py_print ("Adding " +:+ revision_file) ;;;
      ret (Some revision_id).

End Commands.

(* ===================================================================== *)
(** ** Paths and contracts the statements refer to *)
(* ===================================================================== *)

(** [<prompts_location>/<name>.py], the working prompt file. *)
Definition working_path (s : MirascopeSettings) (name : string) : string :=
  Py.path_join (prompts_location s) (name +:+ ".py").

(** [<versions_location>/<name>], the directory of the prompt's snapshots. *)
Definition versions_directory (s : MirascopeSettings) (name : string) : string :=
  Py.path_join (versions_location s) name.

(** [<versions_location>/<name>/<version_file_name>], the pointer file. *)
Definition pointer_path (s : MirascopeSettings) (name : string) : string :=
  Py.path_join (versions_directory s name) (version_file_name s).

(** A Python [dict] built from a literal: the last binding of a key wins. *)
Definition dict_get (d : list (string * string)) (key : string) : option string :=
  fold_left (λ acc kv, if String.eqb (fst kv) key then Some (snd kv) else acc) d None.

(** Modelled from the spec: in a pointer file a missing or empty value
    denotes null. *)
Definition null_if_empty (value : string) : option string :=
  if Py.truthy value then Some value else None.

Definition set_field (new : option string) (old : option string) : option string :=
  match new with
  | Some value => null_if_empty value
  | None => old
  end.

Section Contracts.

Context (U : CliUtils).

(** The pointer file after the keys of [updates] have been set. *)
Definition apply_updates (updates : list (string * string)) (v : VersionTextFile)
  : VersionTextFile :=
  {| current_revision :=
       set_field (dict_get updates CURRENT_REVISION_KEY) (current_revision v);
     latest_revision :=
       set_field (dict_get updates LATEST_REVISION_KEY) (latest_revision v) |}.

(** Modelled from the spec: the pointer file is plain key-value text with
    the two recognized keys; [get_prompt_versions] reads the two fields
    from that one file, and [update_version_text_file] sets the given
    keys in it and leaves every other key and every other file alone. *)
Class PointerFileSpec : Prop := {
  revision_keys_distinct : CURRENT_REVISION_KEY ≠ LATEST_REVISION_KEY;
  get_prompt_versions_local :
    ∀ path (f1 f2 : FS),
      f1 !! path = f2 !! path →
      get_prompt_versions path f1 = get_prompt_versions path f2;
  update_version_text_file_fields :
    ∀ path updates (f f' : FS) v,
      update_version_text_file path updates f = (Ok tt, f') →
      get_prompt_versions path f = Ok v →
      get_prompt_versions path f' = Ok (apply_updates updates v);
  update_version_text_file_frame :
    ∀ path updates (f f' : FS) r,
      update_version_text_file path updates f = (r, f') →
      ∀ q, q ≠ path → f' !! q = f !! q
}.

(** Modelled from the spec: the formatter rewrites the file it is given,
    and no other. *)
Class FormatterSpec : Prop := {
  run_format_command_frame :
    ∀ path (f f' : FS) r,
      run_format_command path f = (r, f') →
      ∀ q, q ≠ path → f' !! q = f !! q
}.

End Contracts.

(* ===================================================================== *)
(** ** The steps of a run *)
(* ===================================================================== *)

Section Steps.

Context {U : CliUtils}.

(** The events of a checkout that runs to its end. *)
Definition use_events (s : MirascopeSettings) (name key target rendered : string)
  : list Event :=
  [ EvSettings;
    EvCheckStatus name;
    EvFindPromptPath (versions_directory s name) key;
    EvOpenRead target;
    EvOpenWrite (working_path s name);
    EvRender USE;
    EvWrite (working_path s name) rendered;
    EvFormat (working_path s name);
    EvUpdateVersionFile (pointer_path s name) [(CURRENT_REVISION_KEY, key)] ].

End Steps.

(** The steps that read or write a file. *)
Definition touches_files (ev : Event) : bool :=
  match ev with
  | EvOpenRead _ | EvOpenWrite _ | EvWrite _ _ | EvFormat _
  | EvUpdateVersionFile _ _ => true
  | _ => false
  end.

(* ===================================================================== *)
(** ** A small installation to run the commands on *)
(* ===================================================================== *)

Module Demo.

Definition settings : MirascopeSettings :=
  {| mirascope_location := ".mirascope";
     auto_tag := true;
     version_file_name := "version.txt";
     prompts_location := "prompts";
     versions_location := ".mirascope/versions" |}.

Definition ends_with (suffix s : string) : bool :=
  String.eqb
    (substring (String.length s - String.length suffix) (String.length suffix) s)
    suffix.

Definition paths (f : FS) : list string := (map_to_list f).*1.

(** The first snapshot named [<prefix>_*.py] in the directory. *)
Definition glob_prompt_path (directory prefix : string) (f : FS)
  : Outcome (option string) :=
  Ok (head (List.filter
              (λ path, String.prefix (Py.path_join directory (prefix +:+ "_")) path
                       && ends_with ".py" path)
              (paths f))).

(** The [*.py] names in the directory. *)
Definition list_file_names (directory : string) (f : FS) : Outcome (list string) :=
  let root := Py.path_join directory "" in
  Ok (List.map
        (λ path, substring (String.length root)
                           (String.length path - String.length root) path)
        (List.filter (λ path, String.prefix root path && ends_with ".py" path)
                     (paths f))).

(** The pointer file as text: the four characters of the current
    revision, then the latest revision. *)
Definition read_pointer (path : string) (f : FS) : Outcome VersionTextFile :=
  let text := default "" (f !! path) in
  Ok {| current_revision := null_if_empty (substring 0 4 text);
        latest_revision :=
          null_if_empty (substring 4 (String.length text - 4) text) |}.

Definition write_pointer (path : string)
    (updates : list (string * string)) (f : FS) : Outcome unit * FS :=
  let text := default "" (f !! path) in
  let current :=
    default (substring 0 4 text) (dict_get updates "current_revision") in
  let latest :=
    default (substring 4 (String.length text - 4) text)
            (dict_get updates "latest_revision") in
  if Nat.eqb (String.length current) 4
  then (Ok tt, <[path := current +:+ latest]> f)
  else (Raise (ValueError "current revision must have four digits"), f).

(** Drift: the working prompt differs from the snapshot of the current
    revision, or nothing was committed yet. *)
Definition status (s : MirascopeSettings) (name : string) (f : FS)
  : Outcome (option string) :=
  let used_prompt_path := working_path s name in
  match f !! used_prompt_path with
  | None =>
      Raise (FileNotFoundError
               ("[Errno 2] No such file or directory: '" +:+ used_prompt_path +:+ "'"))
  | Some body =>
      match read_pointer (pointer_path s name) f with
      | Raise e => Raise e
      | Ok versions =>
          match current_revision versions with
          | None => Ok (Some used_prompt_path)
          | Some revision =>
              match glob_prompt_path (versions_directory s name) revision f with
              | Ok (Some snapshot) =>
                  if String.eqb (default "" (f !! snapshot)) body
                  then Ok None else Ok (Some used_prompt_path)
              | _ => Ok (Some used_prompt_path)
              end
          end
      end
  end.

(** The installation's helpers, around a given formatter: the renderers
    leave the text as it is. *)
Definition make_utils (formatter : string → FS → Outcome unit * FS) : CliUtils := {|
  get_user_mirascope_settings := λ _, Ok settings;
  check_status := status;
  find_prompt_path := glob_prompt_path;
  find_file_names := list_file_names;
  get_prompt_versions := read_pointer;
  write_prompt_to_template := λ content _ _, Ok content;
  render_snapshot := λ body _ _, Ok body;
  run_format_command := formatter;
  update_version_text_file := write_pointer;
  CURRENT_REVISION_KEY := "current_revision";
  LATEST_REVISION_KEY := "latest_revision"
|}.

(** With a formatter that finds nothing to rewrite. *)
Definition utils : CliUtils := make_utils (λ _ f, (Ok tt, f)).

(** With a formatter that fails before it rewrites anything. *)
Definition utils_failing_formatter : CliUtils :=
  make_utils
    (λ _ f, (Raise (OtherError "CalledProcessError" "formatter exited with 1"), f)).

(** Prompt [p] after two commits, revision [0002] checked out. *)
Definition files : FS :=
  <[ "prompts/p.py" := "prompt = 'two'" ]>
  (<[ ".mirascope/versions/p/version.txt" := "00020002" ]>
  (<[ ".mirascope/versions/p/0001_p.py" := "prompt = 'one'" ]>
  (<[ ".mirascope/versions/p/0002_p.py" := "prompt = 'two'" ]> ∅))).

Definition clean : World := {| fs := files; stdout := []; trace := [] |}.

(** The same, with an uncommitted edit of the working prompt. *)
Definition dirty : World :=
  {| fs := <[ "prompts/p.py" := "prompt = 'three'" ]> files;
     stdout := []; trace := [] |}.

(** A fresh project: the prompt was never committed. *)
Definition fresh : World :=
  {| fs := {[ "prompts/p.py" := "prompt = 'one'" ]}; stdout := []; trace := [] |}.

(** The two commands on this installation. *)
Definition use := @use_command utils.
Definition add := @add_command utils.

End Demo.

(* ===================================================================== *)
(** ** Snapshot names and faulty collaborators *)
(* ===================================================================== *)

(** The name of a snapshot file, [NNNN_<alias>.py]: the layout the
    completion helpers of [use.py] slice, and the one [test_add.py] names
    ([0001_{golden_prompt}.py]). *)
Definition snapshot_name (revision alias : string) : string :=
  revision +:+ "_" +:+ alias +:+ ".py".

(** The first drift line of [use_command]. *)
Definition changes_detected : string :=
  "Changes detected, please add or remove changes first.".

Module Faulty.

(** The installation of [Demo] with a renderer that fails. *)
Definition utils_failing_renderer : CliUtils := {|
  get_user_mirascope_settings := λ _, Ok Demo.settings;
  check_status := Demo.status;
  find_prompt_path := Demo.glob_prompt_path;
  find_file_names := Demo.list_file_names;
  get_prompt_versions := Demo.read_pointer;
  write_prompt_to_template :=
    λ _ _ _, Raise (OtherError "TemplateSyntaxError" "unexpected end of template");
  render_snapshot := λ body _ _, Ok body;
  run_format_command := λ _ f, (Ok tt, f);
  update_version_text_file := Demo.write_pointer;
  CURRENT_REVISION_KEY := "current_revision";
  LATEST_REVISION_KEY := "latest_revision"
|}.

End Faulty.

Module Aliased.

(** Prompt [p] with a second snapshot under the alias [winter]. *)
Definition files : FS :=
  <[ "prompts/p.py" := "prompt = 'two'" ]>
  (<[ ".mirascope/versions/p/version.txt" := "00020002" ]>
  (<[ ".mirascope/versions/p/0001_p.py" := "prompt = 'one'" ]>
  (<[ ".mirascope/versions/p/0002_winter.py" := "prompt = 'two'" ]> ∅))).

Definition world : World := {| fs := files; stdout := []; trace := [] |}.

(** The completion context after [use p]. *)
Definition typed_prompt : gmap string string :=
  {[ "prompt_file_name" := "p" ]}.

(** The completion context after [use p winter]. *)
Definition typed_alias : gmap string string :=
  <[ "alias" := "winter" ]> typed_prompt.

End Aliased.

(* ===================================================================== *)
(** ** [mirascope/core/cohere/_utils/convert_message_params.py] *)
(* ===================================================================== *)

Module Cohere.

(** [cohere.types.ChatMessage], with the two fields the conversion sets. *)
Record ChatMessage := {
  role : string;
  message : string
}.

(** A part of a multi-part content. The conversion looks at the [type]
    tag of a part and, when the tag is ["text"], at its [text]; a part of
    another kind carries its own tag. *)
Inductive Part :=
| TextPart (text : string)
| MediaPart (kind : string).

(** [part.type == "text"] *)
Definition is_text (part : option Part) : bool :=
  match part with
  | Some (TextPart _) => true
  | _ => false
  end.

(** [part.text] *)
Definition part_text (part : option Part) : string :=
  match part with
  | Some (TextPart text) => text
  | _ => ""
  end.

(** The [content] of a [BaseMessageParam]: a [str] or a sequence of parts. *)
Inductive Content :=
| Str (text : string)
| Parts (parts : list Part).

(** [BaseMessageParam] *)
Record BaseMessageParam := {
  param_role : string;
  content : Content
}.

(** An element of the input list: [BaseMessageParam | ChatMessage]. *)
Inductive MessageParam :=
| Chat (m : ChatMessage)
| Base (p : BaseMessageParam).

Definition multimodal_error : PyError :=
  ValueError "Cohere does not currently support multimodalities.".

Section Convert.

(** [str.upper] *)
Variable upper : string → string.

(** The loop of [convert_message_params], from the messages still to
    convert and the list converted so far. *)
Fixpoint convert_loop (message_params : list MessageParam)
    (converted_message_params : list ChatMessage) : Outcome (list ChatMessage) :=
  match message_params with
  | [] => Ok converted_message_params
  | message_param :: rest =>
      match message_param with
      | Chat m => convert_loop rest (converted_message_params ++ [m])
      | Base p =>
          match content p with
          | Str text =>
              convert_loop rest
                (converted_message_params
                   ++ [{| role := upper (param_role p); message := text |}])
          | Parts parts =>
              if negb (Nat.eqb (length parts) 1) || negb (is_text (head parts))
              then Raise multimodal_error
              else
                convert_loop rest
                  (converted_message_params
                     ++ [{| role := upper (param_role p);
                            message := part_text (head parts) |}])
          end
      end
  end.

(** [convert_message_params] *)
Definition convert_message_params (message_params : list MessageParam)
  : Outcome (list ChatMessage) :=
  convert_loop message_params [].

End Convert.

(** What the loop appends for one message it accepts. *)
Definition convert_one (upper : string → string) (message_param : MessageParam)
  : ChatMessage :=
  match message_param with
  | Chat m => m
  | Base p =>
      {| role := upper (param_role p);
         message := match content p with
                    | Str text => text
                    | Parts parts => part_text (head parts)
                    end |}
  end.

(** [str.upper] on a string of ASCII characters. *)
Fixpoint upper_ascii (s : string) : string :=
  match s with
  | EmptyString => EmptyString
  | String c rest =>
      let n := nat_of_ascii c in
      String (if Nat.leb 97 n && Nat.leb n 122 then ascii_of_nat (n - 32) else c)
             (upper_ascii rest)
  end.

(** A conversation with a message of each accepted form. *)
Definition conversation : list MessageParam :=
  [ Chat {| role := "SYSTEM"; message := "You are a librarian." |};
    Base {| param_role := "user"; content := Str "Recommend a book." |};
    Base {| param_role := "assistant";
            content := Parts [TextPart "The Name of the Wind."] |} ].

(** A message the conversion accepts: a chat message, a text content, or
    a content of exactly one text part. *)
Definition convertible (message_param : MessageParam) : bool :=
  match message_param with
  | Chat _ => true
  | Base p =>
      match content p with
      | Str _ => true
      | Parts [TextPart _] => true
      | Parts _ => false
      end
  end.

End Cohere.

(* ===================================================================== *)
(** ** Properties of the Python string helpers *)
(* ===================================================================== *)

Lemma truthy_append_r (a b : string) :
  Py.truthy b = true → Py.truthy (a +:+ b) = true.
Proof.
  intros Hb. destruct a as [|c a]; simpl; [exact Hb | reflexivity].
Qed.

Lemma truthy_path_join (a b : string) :
  Py.truthy b = true → Py.truthy (Py.path_join a b) = true.
Proof.
  intros Hb. unfold Py.path_join.
  destruct (Py.startswith_sep b); [exact Hb |].
  destruct (negb (Py.truthy a) || Py.endswith_sep a).
  - by apply truthy_append_r.
  - by apply truthy_append_r.
Qed.

(** The working prompt path is never the empty string, so the test
    [if prompt_file_path:] of [use_command] always succeeds. *)
Lemma working_path_truthy (s : MirascopeSettings) (name : string) :
  Py.truthy (working_path s name) = true.
Proof.
  apply truthy_path_join, truthy_append_r. reflexivity.
Qed.

(** The suggestion line: the tab becomes four spaces, and the name starts
    at column 18. *)
Lemma suggestion_line (name : string) :
  Py.expandtabs 4 (String Py.TAB ("mirascope add " +:+ name))
  = "    mirascope add " +:+ Py.expandtabs_from 4 18 name.
Proof. reflexivity. Qed.

Lemma effective_version_idem (alias : string) (version : option string) :
  effective_version (effective_version alias version) None
  = effective_version alias version.
Proof. reflexivity. Qed.


(* ===================================================================== *)
(** ** Running [use_command] *)
(* ===================================================================== *)

(** Unfolds one run of a command down to the helper calls. *)
Ltac run_cmd :=
  unfold bind, query, action, py_print, open_read, open_write, file_write,
    path_exists, raise, ret, log, with_fs; cbn [fs stdout trace].

(** Rewrites with the outcome of a helper call and moves on. *)
Ltac known H := rewrite H; cbn [fs stdout trace].

Section UseRuns.

Context {U : CliUtils}.

(** The drift exit. *)
Lemma use_command_drift name alias version w s used :
  get_user_mirascope_settings (fs w) = Ok s →
  check_status s name (fs w) = Ok used →
  Py.truthy_opt used = true →
  use_command name alias version w
  = (Ok None,
     {| fs := fs w;
        stdout := stdout w
                    ++ [ "Changes detected, please add or remove changes first.";
                         "    mirascope add " +:+ Py.expandtabs_from 4 18 name ];
        trace := trace w ++ [EvSettings; EvCheckStatus name] |}).
Proof.
  intros Hs Hc Hd. unfold use_command. run_cmd.
  known Hs. known Hc. known Hd.
  by rewrite <- !app_assoc.
Qed.

(** The run up to the lookup of the snapshot, when there is no drift. *)
Lemma use_command_not_found name alias version w s used :
  get_user_mirascope_settings (fs w) = Ok s →
  check_status s name (fs w) = Ok used →
  Py.truthy_opt used = false →
  find_prompt_path (versions_directory s name)
    (effective_version alias version) (fs w) = Ok None →
  use_command name alias version w
  = (Raise (FileNotFoundError
              ("Prompt version " +:+ effective_version alias version
               +:+ " not found in " +:+ versions_directory s name)),
     {| fs := fs w;
        stdout := stdout w;
        trace := trace w
                   ++ [ EvSettings; EvCheckStatus name;
                        EvFindPromptPath (versions_directory s name)
                          (effective_version alias version) ] |}).
Proof.
  intros Hs Hc Hd Hf. unfold use_command. run_cmd.
  known Hs. known Hc. known Hd.
  fold (versions_directory s name). known Hf.
  by rewrite <- !app_assoc.
Qed.

(** A checkout that returns without having taken the drift exit ran every
    step: the snapshot was found and read, the working prompt was
    truncated, rendered and written, the formatter and the pointer update
    succeeded, and the snapshot path was printed. *)
Lemma use_command_success name alias version w s used r w' :
  get_user_mirascope_settings (fs w) = Ok s →
  check_status s name (fs w) = Ok used →
  Py.truthy_opt used = false →
  use_command name alias version w = (Ok r, w') →
  ∃ target content rendered f1 f2,
    find_prompt_path (versions_directory s name)
      (effective_version alias version) (fs w) = Ok (Some target)
    ∧ fs w !! target = Some content
    ∧ write_prompt_to_template content USE
        (<[working_path s name := ""]> (fs w)) = Ok rendered
    ∧ run_format_command (working_path s name)
        (<[working_path s name := rendered]>
           (<[working_path s name := ""]> (fs w))) = (Ok tt, f1)
    ∧ update_version_text_file (pointer_path s name)
        [(CURRENT_REVISION_KEY, effective_version alias version)] f1 = (Ok tt, f2)
    ∧ r = None
    ∧ w' = {| fs := f2;
              stdout := stdout w ++ ["Using " +:+ target];
              trace := trace w
                         ++ use_events s name (effective_version alias version)
                              target rendered |}.
Proof.
  intros Hs Hc Hd. unfold use_command. run_cmd.
  known Hs. known Hc. known Hd.
  fold (versions_directory s name). fold (working_path s name).
  fold (pointer_path s name).
  destruct (find_prompt_path _ _ _) as [[target|]|e] eqn:Hf; [|done|done].
  cbn [fs stdout trace].
  destruct (fs w !! target) as [content|] eqn:Hr; [|done].
  cbn [fs stdout trace].
  destruct (write_prompt_to_template _ _ _) as [rendered|e] eqn:Hw; [|done].
  cbn [fs stdout trace].
  rewrite working_path_truthy.
  destruct (run_format_command _ _) as [[[]|e] f1] eqn:Hfmt; [|done].
  cbn [fs stdout trace].
  destruct (update_version_text_file _ _ _) as [[[]|e] f2] eqn:Hu; [|done].
  cbn [fs stdout trace]. intros [= <- <-].
  exists target, content, rendered, f1, f2.
  repeat split; try done.
  unfold use_events. by rewrite <- !app_assoc.
Qed.

End UseRuns.

(* ===================================================================== *)
(** ** The order of the steps of [use_command] *)
(* ===================================================================== *)

Section UseTrace.

Context {U : CliUtils}.

Lemma use_events_NoDup s name key target rendered :
  NoDup (use_events s name key target rendered).
Proof.
  unfold use_events.
  repeat (apply NoDup_cons; split; [by intros Hin; decompose_list_elem_of |]).
  apply NoDup_nil_2.
Qed.

(** Whatever happens, a run of [use_command] performs an initial segment
    of the steps of a checkout, in their order. *)
Lemma use_command_trace name alias version w :
  ∃ s target rendered k,
    trace (snd (use_command name alias version w))
    = (trace w
         ++ take k (use_events s name (effective_version alias version)
                      target rendered))%list.
Proof.
  unfold use_command. run_cmd.
  destruct (get_user_mirascope_settings (fs w)) as [s|e] eqn:Hs;
    cbn [fs stdout trace snd].
  2: { exists {| mirascope_location := ""; auto_tag := false;
                 version_file_name := ""; prompts_location := "";
                 versions_location := "" |}, "", "", 1.
       reflexivity. }
  fold (versions_directory s name). fold (working_path s name).
  fold (pointer_path s name).
  destruct (check_status s name (fs w)) as [used|e] eqn:Hc;
    cbn [fs stdout trace snd].
  2: { exists s, "", "", 2. by rewrite <- !app_assoc. }
  destruct (Py.truthy_opt used); cbn [fs stdout trace snd].
  { exists s, "", "", 2. by rewrite <- !app_assoc. }
  destruct (find_prompt_path _ _ _) as [[target|]|e] eqn:Hf;
    cbn [fs stdout trace snd].
  2, 3: exists s, "", "", 3; by rewrite <- !app_assoc.
  destruct (fs w !! target) as [content|] eqn:Hr; cbn [fs stdout trace snd].
  2: { exists s, target, "", 4. by rewrite <- !app_assoc. }
  destruct (write_prompt_to_template _ _ _) as [rendered|e] eqn:Hw;
    cbn [fs stdout trace snd].
  2: { exists s, target, "", 6. by rewrite <- !app_assoc. }
  rewrite working_path_truthy.
  destruct (run_format_command _ _) as [[[]|e] f1] eqn:Hfmt;
    cbn [fs stdout trace snd].
  2: { exists s, target, rendered, 8. by rewrite <- !app_assoc. }
  destruct (update_version_text_file _ _ _) as [[[]|e] f2] eqn:Hu;
    cbn [fs stdout trace snd].
  - exists s, target, rendered, 9. by rewrite <- !app_assoc.
  - exists s, target, rendered, 9. by rewrite <- !app_assoc.
Qed.

End UseTrace.

(* ===================================================================== *)
(** ** The small installation meets the contracts *)
(* ===================================================================== *)

Module DemoFacts.

Lemma substring_all (s : string) : substring 0 (String.length s) s = s.
Proof. induction s as [|c s IH]; simpl; [done | by rewrite IH]. Qed.

Lemma substring_none (s : string) : substring 0 0 s = "".
Proof. by destruct s. Qed.

Lemma four_then_rest (current latest : string) :
  String.length current = 4 →
  substring 0 4 (current +:+ latest) = current
  ∧ substring 4 (String.length (current +:+ latest) - 4) (current +:+ latest)
    = latest.
Proof.
  destruct current as [|a [|b [|c [|d [|e rest]]]]]; try discriminate.
  intros _. simpl. rewrite substring_none.
  rewrite Nat.sub_0_r, substring_all. done.
Qed.

Lemma pointer_file_spec formatter :
  PointerFileSpec (Demo.make_utils formatter).
Proof.
  split.
  - discriminate.
  - intros path f1 f2 Heq. simpl. unfold Demo.read_pointer. by rewrite Heq.
  - intros path updates f f' v. simpl.
    unfold Demo.write_pointer, Demo.read_pointer.
    set (text := default "" (f !! path)).
    set (current := default (substring 0 4 text) _).
    set (latest := default (substring 4 _ text) _).
    destruct (Nat.eqb _ 4) eqn:Hlen; [|discriminate].
    apply Nat.eqb_eq in Hlen.
    intros [= <-] [= <-].
    rewrite lookup_insert_eq.
    change (default "" (Some (current +:+ latest))) with (current +:+ latest).
    destruct (four_then_rest current latest Hlen) as [-> ->].
    unfold apply_updates. cbn [current_revision latest_revision].
    cbn [CURRENT_REVISION_KEY LATEST_REVISION_KEY Demo.make_utils].
    subst current latest.
    f_equal. f_equal.
    + by destruct (dict_get updates "current_revision").
    + by destruct (dict_get updates "latest_revision").
  - intros path updates f f' r. simpl. unfold Demo.write_pointer.
    destruct (Nat.eqb _ 4); intros [= <- <-] q Hq; [|done].
    by rewrite lookup_insert_ne.
Qed.

Lemma formatter_spec_idle : FormatterSpec Demo.utils.
Proof. split. intros path f f' r [= <- <-]. done. Qed.

Lemma formatter_spec_failing : FormatterSpec Demo.utils_failing_formatter.
Proof. split. intros path f f' r [= <- <-]. done. Qed.

End DemoFacts.

(* ===================================================================== *)
(** ** The [use] command *)
(* ===================================================================== *)

Section UseClaims.

Context {U : CliUtils}.

(** C1 (as amended). When the status check reports drift (it returns a
    path), Use stops there and returns normally: it prints that changes
    were detected and suggests [mirascope add <prompt_file_name>], naming
    the prompt rather than the conflicting path, and it mutates nothing:
    the file system is as before and no step of the run reads a snapshot,
    writes the working prompt or updates the pointer file. *)
Theorem use_drift_guard name alias version w s path :
  get_user_mirascope_settings (fs w) = Ok s →
  check_status s name (fs w) = Ok (Some path) →
  Py.truthy path = true →
  ∃ w' steps,
    use_command name alias version w = (Ok None, w')
    ∧ fs w' = fs w
    ∧ stdout w'
      = stdout w
          ++ [ "Changes detected, please add or remove changes first.";
               "    mirascope add " +:+ Py.expandtabs_from 4 18 name ]
    ∧ trace w' = trace w ++ steps
    ∧ existsb touches_files steps = false.
Proof.
  intros Hs Hc Hp.
  eexists _, [EvSettings; EvCheckStatus name].
  split; [by apply (use_command_drift _ _ _ _ s (Some path)) |].
  done.
Qed.

(** C4. With no drift, when no snapshot matches the requested revision
    or alias, Use fails with [FileNotFoundError] and nothing has changed:
    the file system and the output are as before, and no step of the run
    touched a file. *)
Theorem use_unknown_revision name alias version w s used :
  get_user_mirascope_settings (fs w) = Ok s →
  check_status s name (fs w) = Ok used →
  Py.truthy_opt used = false →
  find_prompt_path (versions_directory s name)
    (effective_version alias version) (fs w) = Ok None →
  ∃ w' steps,
    use_command name alias version w
    = (Raise (FileNotFoundError
                ("Prompt version " +:+ effective_version alias version
                 +:+ " not found in " +:+ versions_directory s name)), w')
    ∧ fs w' = fs w
    ∧ stdout w' = stdout w
    ∧ trace w' = trace w ++ steps
    ∧ existsb touches_files steps = false.
Proof.
  intros Hs Hc Hd Hf.
  eexists _, [EvSettings; EvCheckStatus name; EvFindPromptPath _ _].
  split; [by apply (use_command_not_found _ _ _ _ s used) |].
  done.
Qed.

(** C9 (as amended). Every successful Use prints [Using <path>] as its
    last line, where the path is that of the snapshot put into use, as
    [find_prompt_path] returned it; the function itself returns [None]. *)
Theorem use_prints_snapshot_path name alias version w s used r w' :
  get_user_mirascope_settings (fs w) = Ok s →
  check_status s name (fs w) = Ok used →
  Py.truthy_opt used = false →
  use_command name alias version w = (Ok r, w') →
  ∃ target,
    find_prompt_path (versions_directory s name)
      (effective_version alias version) (fs w) = Ok (Some target)
    ∧ is_Some (fs w !! target)
    ∧ stdout w' = stdout w ++ ["Using " +:+ target]
    ∧ r = None.
Proof.
  intros Hs Hc Hd Hrun.
  destruct (use_command_success _ _ _ _ _ _ _ _ Hs Hc Hd Hrun)
    as (target & content & rendered & f1 & f2 & Hf & Hr & _ & _ & _ & -> & ->).
  exists target. by rewrite Hr.
Qed.

(** C3 (as amended). The lookup key of Use is [alias_or_version] when the
    version argument is empty or absent, and the version argument alone
    when it is not: the alias is then ignored, and any other alias gives
    the same run. The target is the snapshot [find_prompt_path] returns
    for that key in the prompt's versions directory. *)
Theorem use_resolution name alias version w s used r w' :
  get_user_mirascope_settings (fs w) = Ok s →
  check_status s name (fs w) = Ok used →
  Py.truthy_opt used = false →
  use_command name alias version w = (Ok r, w') →
  ∃ target,
    find_prompt_path (versions_directory s name)
      match version with
      | Some v => if Py.truthy v then v else alias
      | None => alias
      end (fs w) = Ok (Some target)
    ∧ stdout w' = stdout w ++ ["Using " +:+ target]
    ∧ (Py.truthy_opt version = true →
       ∀ alias', use_command name alias' version w = (Ok r, w')).
Proof.
  intros Hs Hc Hd Hrun.
  destruct (use_command_success _ _ _ _ _ _ _ _ Hs Hc Hd Hrun)
    as (target & content & rendered & f1 & f2 & Hf & Hr & _ & _ & _ & -> & ->).
  exists target. split; [|split; [done|]].
  - rewrite <- Hf. f_equal. by destruct version as [[|c v]|].
  - intros Hv alias'. rewrite <- Hrun.
    unfold use_command, effective_version. by rewrite Hv.
Qed.


(** C6. On every successful Use the working prompt file is overwritten
    with the content of the target snapshot rendered through the
    working-file template; the formatter then runs on that file, and
    what it leaves there is the content of the working prompt at the
    end. *)
Theorem use_overwrites_working_prompt name alias version w s used r w'
    (P : PointerFileSpec U) :
  get_user_mirascope_settings (fs w) = Ok s →
  check_status s name (fs w) = Ok used →
  Py.truthy_opt used = false →
  use_command name alias version w = (Ok r, w') →
  pointer_path s name ≠ working_path s name →
  ∃ target content rendered steps f1,
    find_prompt_path (versions_directory s name)
      (effective_version alias version) (fs w) = Ok (Some target)
    ∧ fs w !! target = Some content
    ∧ write_prompt_to_template content USE
        (<[working_path s name := ""]> (fs w)) = Ok rendered
    ∧ trace w' = trace w ++ steps
    ∧ EvWrite (working_path s name) rendered ∈ steps
    ∧ (∀ path text, EvWrite path text ∈ steps →
                    path = working_path s name ∧ text = rendered)
    ∧ run_format_command (working_path s name)
        (<[working_path s name := rendered]> (fs w)) = (Ok tt, f1)
    ∧ fs w' !! working_path s name = f1 !! working_path s name.
Proof.
  intros Hs Hc Hd Hrun Hne.
  destruct (use_command_success _ _ _ _ _ _ _ _ Hs Hc Hd Hrun)
    as (target & content & rendered & f1 & f2 & Hf & Hr & Hw & Hfmt & Hu & -> & ->).
  rewrite insert_insert_eq in Hfmt.
  exists target, content, rendered,
    (use_events s name (effective_version alias version) target rendered), f1.
  cbn [fs trace].
  do 4 (split; [done|]). split; [|split; [|split; [done|]]].
  - unfold use_events. set_solver.
  - intros path text Hin. unfold use_events in Hin.
    decompose_list_elem_of; by simplify_eq.
  - by apply (@update_version_text_file_frame U P _ _ _ _ _ Hu).
Qed.

(** C10. The working prompt is written, and the formatter called on it,
    before the pointer file is updated, and the two writes are not
    atomic: when the formatter raises after the working prompt was
    written, Use raises the same exception, having done every step of a
    checkout but the pointer update; the working prompt holds the
    rendered content of the new revision while the pointer file, and so
    [current_revision], is unchanged. *)
Theorem use_not_atomic name alias version w s used target content rendered e f1
    (P : PointerFileSpec U) (F : FormatterSpec U) :
  get_user_mirascope_settings (fs w) = Ok s →
  check_status s name (fs w) = Ok used →
  Py.truthy_opt used = false →
  find_prompt_path (versions_directory s name)
    (effective_version alias version) (fs w) = Ok (Some target) →
  fs w !! target = Some content →
  write_prompt_to_template content USE
    (<[working_path s name := ""]> (fs w)) = Ok rendered →
  run_format_command (working_path s name)
    (<[working_path s name := rendered]>
       (<[working_path s name := ""]> (fs w))) = (Raise e, f1) →
  f1 !! working_path s name = Some rendered →
  pointer_path s name ≠ working_path s name →
  ∃ w' steps,
    use_command name alias version w = (Raise e, w')
    ∧ trace w' = trace w ++ steps
    ∧ use_events s name (effective_version alias version) target rendered
      = steps
          ++ [EvUpdateVersionFile (pointer_path s name)
                [(CURRENT_REVISION_KEY, effective_version alias version)]]
    ∧ fs w' !! working_path s name = Some rendered
    ∧ fs w' !! pointer_path s name = fs w !! pointer_path s name
    ∧ get_prompt_versions (pointer_path s name) (fs w')
      = get_prompt_versions (pointer_path s name) (fs w).
Proof.
  intros Hs Hc Hd Hf Hr Hw Hfmt Hkeep Hne.
  assert (f1 !! pointer_path s name = fs w !! pointer_path s name) as Hptr.
  { rewrite (@run_format_command_frame U F _ _ _ _ Hfmt) by done.
    by rewrite !lookup_insert_ne. }
  eexists _, _. split.
  - unfold use_command. run_cmd.
    known Hs. known Hc. known Hd.
    fold (versions_directory s name). fold (working_path s name).
    known Hf. known Hr. known Hw.
    known working_path_truthy. known Hfmt.
    rewrite <- !app_assoc. reflexivity.
  - cbn [fs trace]. repeat split; try done.
    by apply (@get_prompt_versions_local U P).
Qed.

(** C5 (as amended). In Use, Not-Found is raised to the caller as
    [FileNotFoundError], and an exception of a collaborator (the
    settings source, the status check, the snapshot lookup, the renderer,
    the formatter, the pointer update) is passed on unchanged; nothing is
    retried: no step of a run happens twice. A dirty working tree is not
    raised: Use prints its guidance and returns normally. *)
Theorem use_error_propagation name alias version w :
  let run := use_command name alias version w in
  let key := effective_version alias version in
  (∃ steps, trace (snd run) = trace w ++ steps ∧ NoDup steps)
  ∧ match get_user_mirascope_settings (fs w) with
    | Raise e => fst run = Raise e
    | Ok s =>
        let working := working_path s name in
        match check_status s name (fs w) with
        | Raise e => fst run = Raise e
        | Ok used =>
            if Py.truthy_opt used then fst run = Ok None
            else
              match find_prompt_path (versions_directory s name) key (fs w) with
              | Raise e => fst run = Raise e
              | Ok None =>
                  fst run
                  = Raise (FileNotFoundError
                             ("Prompt version " +:+ key +:+ " not found in "
                              +:+ versions_directory s name))
              | Ok (Some target) =>
                  match fs w !! target with
                  | None =>
                      fst run
                      = Raise (FileNotFoundError
                                 ("[Errno 2] No such file or directory: '"
                                  +:+ target +:+ "'"))
                  | Some content =>
                      match write_prompt_to_template content USE
                              (<[working := ""]> (fs w)) with
                      | Raise e => fst run = Raise e
                      | Ok rendered =>
                          match run_format_command working
                                  (<[working := rendered]>
                                     (<[working := ""]> (fs w))) with
                          | (Raise e, _) => fst run = Raise e
                          | (Ok _, f1) =>
                              match update_version_text_file (pointer_path s name)
                                      [(CURRENT_REVISION_KEY, key)] f1 with
                              | (Raise e, _) => fst run = Raise e
                              | (Ok _, _) => fst run = Ok None
                              end
                          end
                      end
                  end
              end
        end
    end.
Proof.
  intros run key. split.
  - destruct (use_command_trace name alias version w)
      as (s & target & rendered & k & Htrace).
    eexists. split; [exact Htrace |].
    eapply sublist_NoDup; [apply use_events_NoDup | apply sublist_take].
  - subst run key. unfold use_command. run_cmd.
    destruct (get_user_mirascope_settings (fs w)) as [s|e0]; [|done].
    cbn [fs stdout trace]. cbv zeta.
    fold (versions_directory s name). fold (working_path s name).
    fold (pointer_path s name).
    destruct (check_status s name (fs w)) as [used|e0]; [|done].
    cbn [fs stdout trace].
    destruct (Py.truthy_opt used); [done|].
    destruct (find_prompt_path _ _ _) as [[target|]|e0]; [|done|done].
    cbn [fs stdout trace].
    destruct (fs w !! target) as [content|]; [|done].
    cbn [fs stdout trace].
    destruct (write_prompt_to_template _ _ _) as [rendered|e0]; [|done].
    cbn [fs stdout trace].
    rewrite working_path_truthy.
    destruct (run_format_command _ _) as [[[]|e0] f1]; [|done].
    cbn [fs stdout trace].
    by destruct (update_version_text_file _ _ _) as [[[]|e0] f2].
Qed.

End UseClaims.

(* ===================================================================== *)
(** ** The [add] command *)
(* ===================================================================== *)

Section AddClaims.

Context {U : CliUtils}.

(** C7. When the status check reports no drift, Add prints
    [No changes detected.] and returns normally; it mutates nothing: the
    file system is as before, and no step of the run wrote a snapshot or
    the pointer file, or touched any file. *)
Theorem add_no_changes name w s used :
  get_user_mirascope_settings (fs w) = Ok s →
  check_status s name (fs w) = Ok used →
  Py.truthy_opt used = false →
  ∃ w' steps,
    add_command name w = (Ok None, w')
    ∧ fs w' = fs w
    ∧ stdout w' = stdout w ++ ["No changes detected."]
    ∧ trace w' = trace w ++ steps
    ∧ existsb touches_files steps = false.
Proof.
  intros Hs Hc Hd.
  eexists _, [EvSettings; EvCheckStatus name]. split.
  - unfold add_command. run_cmd.
    known Hs. known Hc. known Hd. cbn [negb fs stdout trace].
    rewrite <- !app_assoc. reflexivity.
  - done.
Qed.


End AddClaims.

(* ===================================================================== *)
(** ** The commands on the small installation *)
(* ===================================================================== *)

Module Runs.

(** Using revision [0001] on the clean tree of the installation. *)
Example use_0001 :
  fst (Demo.use "p" "0001" None Demo.clean) = Ok None
  ∧ stdout (snd (Demo.use "p" "0001" None Demo.clean))
    = ["Using .mirascope/versions/p/0001_p.py"]
  ∧ fs (snd (Demo.use "p" "0001" None Demo.clean))
    = <[ "prompts/p.py" := "prompt = 'one'" ]>
      (<[ ".mirascope/versions/p/version.txt" := "00010002" ]> Demo.files).
Proof. repeat split; reflexivity. Qed.

(** Adding on a fresh project creates revision [0001]. *)
Example add_fresh :
  fst (Demo.add "p" Demo.fresh) = Ok (Some "0001")
  ∧ fs (snd (Demo.add "p" Demo.fresh))
    = <[ ".mirascope/versions/p/version.txt" := "00010001" ]>
      (<[ ".mirascope/versions/p/0001_p.py" := "prompt = 'one'" ]>
         (fs Demo.fresh)).
Proof. repeat split; reflexivity. Qed.

(** Adding an edited prompt creates the next revision. *)
Example add_dirty :
  fst (Demo.add "p" Demo.dirty) = Ok (Some "0003")
  ∧ stdout (snd (Demo.add "p" Demo.dirty))
    = ["Adding .mirascope/versions/p/0003_p.py"].
Proof. repeat split; reflexivity. Qed.

End Runs.

(* ===================================================================== *)
(** ** The theorems at work on the small installation *)
(* ===================================================================== *)

(** A run is its outcome and the world it leaves. *)
Lemma run_result {A} (run : Outcome A * World) (o : Outcome A) :
  fst run = o → run = (o, snd run).
Proof. destruct run as [o' w']. simpl. by intros ->. Qed.

(** Closes a goal about a run on the installation by running it. *)
Ltac by_running :=
  first [ apply run_result; vm_compute; reflexivity
        | reflexivity
        | vm_compute; first [reflexivity | done] ].

(** [use p 0001] on a working tree with an uncommitted edit. *)
Lemma use_drift_guard_dirty :
  @get_user_mirascope_settings Demo.utils (fs Demo.dirty) = Ok Demo.settings
  ∧ Demo.status Demo.settings "p" (fs Demo.dirty) = Ok (Some "prompts/p.py")
  ∧ ∃ w' steps,
      Demo.use "p" "0001" None Demo.dirty = (Ok None, w')
      ∧ fs w' = fs Demo.dirty
      ∧ stdout w'
        = stdout Demo.dirty
            ++ [ "Changes detected, please add or remove changes first.";
                 "    mirascope add " +:+ Py.expandtabs_from 4 18 "p" ]
      ∧ trace w' = trace Demo.dirty ++ steps
      ∧ existsb touches_files steps = false.
Proof.
  split; [by_running|]. split; [by_running|].
  apply (use_drift_guard (U := Demo.utils) "p" "0001" None Demo.dirty
           Demo.settings "prompts/p.py"); by_running.
Defined.

(** C1, as stated, fails: on the dirty tree the status check returns the
    conflicting path [prompts/p.py], and no line Use prints contains it. *)
Lemma use_drift_report_omits_path :
  Demo.status Demo.settings "p" (fs Demo.dirty) = Ok (Some "prompts/p.py")
  ∧ stdout (snd (Demo.use "p" "0001" None Demo.dirty))
    = [ "Changes detected, please add or remove changes first.";
        "    mirascope add p" ]
  ∧ ¬ ∃ line,
        line ∈ stdout (snd (Demo.use "p" "0001" None Demo.dirty))
        ∧ Py.contains "prompts/p.py" line = true.
Proof.
  split; [by_running|].
  assert (stdout (snd (Demo.use "p" "0001" None Demo.dirty))
          = [ "Changes detected, please add or remove changes first.";
              "    mirascope add p" ]) as Hout by by_running.
  split; [exact Hout|].
  intros (line & Hin & Hcontains). rewrite Hout in Hin.
  apply elem_of_cons in Hin as [->|Hin];
    [vm_compute in Hcontains; discriminate|].
  apply elem_of_cons in Hin as [->|Hin];
    [vm_compute in Hcontains; discriminate|].
  by apply elem_of_nil in Hin.
Qed.

(** [use p 0007]: there is no such revision. *)
Lemma use_unknown_revision_0007 :
  Demo.status Demo.settings "p" (fs Demo.clean) = Ok None
  ∧ Demo.glob_prompt_path ".mirascope/versions/p" "0007" (fs Demo.clean) = Ok None
  ∧ ∃ w' steps,
      Demo.use "p" "0007" None Demo.clean
      = (Raise (FileNotFoundError
                  "Prompt version 0007 not found in .mirascope/versions/p"), w')
      ∧ fs w' = fs Demo.clean
      ∧ stdout w' = stdout Demo.clean
      ∧ trace w' = trace Demo.clean ++ steps
      ∧ existsb touches_files steps = false.
Proof.
  split; [by_running|]. split; [by_running|].
  apply (use_unknown_revision (U := Demo.utils) "p" "0007" None Demo.clean
           Demo.settings None); by_running.
Defined.

(** [use p 0001] on the clean tree prints the snapshot path. *)
Lemma use_prints_snapshot_path_0001 :
  Demo.use "p" "0001" None Demo.clean
  = (Ok None, snd (Demo.use "p" "0001" None Demo.clean))
  ∧ ∃ target,
      Demo.glob_prompt_path (versions_directory Demo.settings "p")
        (effective_version "0001" None) (fs Demo.clean) = Ok (Some target)
      ∧ is_Some (fs Demo.clean !! target)
      ∧ stdout (snd (Demo.use "p" "0001" None Demo.clean))
        = stdout Demo.clean ++ ["Using " +:+ target]
      ∧ (None : option string) = None.
Proof.
  split; [by_running|].
  apply (use_prints_snapshot_path (U := Demo.utils) "p" "0001" None Demo.clean
           Demo.settings None None (snd (Demo.use "p" "0001" None Demo.clean)));
    by_running.
Defined.

(** C9, as stated, fails: the successful [use p 0001] prints the path but
    returns [None], not a path. *)
Lemma use_returns_none :
  stdout (snd (Demo.use "p" "0001" None Demo.clean))
  = ["Using .mirascope/versions/p/0001_p.py"]
  ∧ fst (Demo.use "p" "0001" None Demo.clean) = Ok None
  ∧ ¬ ∃ path, fst (Demo.use "p" "0001" None Demo.clean) = Ok (Some path).
Proof.
  split; [by_running|].
  assert (fst (Demo.use "p" "0001" None Demo.clean) = Ok None) as Hret
    by by_running.
  split; [exact Hret|].
  intros (path & Hpath). rewrite Hret in Hpath. discriminate.
Qed.

(** [use p winter 0001]: the version decides, the alias is not looked at. *)
Lemma use_resolution_winter :
  Demo.use "p" "winter" (Some "0001") Demo.clean
  = (Ok None, snd (Demo.use "p" "winter" (Some "0001") Demo.clean))
  ∧ ∃ target,
      Demo.glob_prompt_path (versions_directory Demo.settings "p") "0001"
        (fs Demo.clean) = Ok (Some target)
      ∧ stdout (snd (Demo.use "p" "winter" (Some "0001") Demo.clean))
        = stdout Demo.clean ++ ["Using " +:+ target]
      ∧ (Py.truthy_opt (Some "0001") = true →
         ∀ alias',
           Demo.use "p" alias' (Some "0001") Demo.clean
           = (Ok None, snd (Demo.use "p" "winter" (Some "0001") Demo.clean))).
Proof.
  split; [by_running|].
  apply (use_resolution (U := Demo.utils) "p" "winter" (Some "0001") Demo.clean
           Demo.settings None None
           (snd (Demo.use "p" "winter" (Some "0001") Demo.clean)));
    by_running.
Defined.

(** C3, as stated, fails: [use p winter 0001] succeeds and puts
    [0001_p.py] into use, a snapshot whose alias is [p]; no snapshot of the
    prompt carries the alias [winter]. *)
Lemma use_ignores_alias :
  fst (Demo.use "p" "winter" (Some "0001") Demo.clean) = Ok None
  ∧ stdout (snd (Demo.use "p" "winter" (Some "0001") Demo.clean))
    = ["Using .mirascope/versions/p/0001_p.py"]
  ∧ Py.slice_5_to_minus_3 "0001_p.py" ≠ "winter"
  ∧ fst (@version_autocomplete Demo.utils
           (<["prompt_file_name" := "p"]> (<["alias" := "winter"]> ∅))
           Demo.clean) = Ok []
  ∧ fst (@version_files Demo.utils "p" Demo.clean)
    = Ok ["0001_p.py"; "0002_p.py"].
Proof.
  split; [by_running|]. split; [by_running|].
  split; [vm_compute; discriminate|]. split; by_running.
Qed.

(** C5, as stated, fails: [use p 0001] on the dirty tree is the
    dirty-working-tree condition, and it is not raised to the caller: the
    command returns normally. *)
Lemma use_dirty_tree_not_raised :
  Demo.status Demo.settings "p" (fs Demo.dirty) = Ok (Some "prompts/p.py")
  ∧ fst (Demo.use "p" "0001" None Demo.dirty) = Ok None
  ∧ ¬ ∃ e, fst (Demo.use "p" "0001" None Demo.dirty) = Raise e.
Proof.
  split; [by_running|].
  assert (fst (Demo.use "p" "0001" None Demo.dirty) = Ok None) as Hret
    by by_running.
  split; [exact Hret|].
  intros (e & He). rewrite Hret in He. discriminate.
Qed.


(** [use p 0001] after the second commit: the working prompt is the text
    of snapshot [0001]. *)
Lemma use_overwrites_working_prompt_0001 :
  PointerFileSpec Demo.utils
  ∧ fs (snd (Demo.use "p" "0001" None Demo.clean)) !! "prompts/p.py"
    = Some "prompt = 'one'"
  ∧ ∃ target content rendered steps f1,
      Demo.glob_prompt_path (versions_directory Demo.settings "p")
        (effective_version "0001" None) (fs Demo.clean) = Ok (Some target)
      ∧ fs Demo.clean !! target = Some content
      ∧ @write_prompt_to_template Demo.utils content USE
          (<[working_path Demo.settings "p" := ""]> (fs Demo.clean)) = Ok rendered
      ∧ trace (snd (Demo.use "p" "0001" None Demo.clean))
        = trace Demo.clean ++ steps
      ∧ EvWrite (working_path Demo.settings "p") rendered ∈ steps
      ∧ (∀ path text, EvWrite path text ∈ steps →
                      path = working_path Demo.settings "p" ∧ text = rendered)
      ∧ @run_format_command Demo.utils (working_path Demo.settings "p")
          (<[working_path Demo.settings "p" := rendered]> (fs Demo.clean))
        = (Ok tt, f1)
      ∧ fs (snd (Demo.use "p" "0001" None Demo.clean))
          !! working_path Demo.settings "p"
        = f1 !! working_path Demo.settings "p".
Proof.
  split; [apply DemoFacts.pointer_file_spec|].
  split; [by_running|].
  apply (use_overwrites_working_prompt (U := Demo.utils) "p" "0001" None Demo.clean
           Demo.settings None None (snd (Demo.use "p" "0001" None Demo.clean))
           (DemoFacts.pointer_file_spec _));
    by_running.
Defined.

(** [use p 0001] with a formatter that fails: the working prompt already
    holds revision [0001], the pointer file still says [0002]. *)
Lemma use_not_atomic_failing_formatter :
  PointerFileSpec Demo.utils_failing_formatter
  ∧ FormatterSpec Demo.utils_failing_formatter
  ∧ fs Demo.clean !! ".mirascope/versions/p/version.txt" = Some "00020002"
  ∧ ∃ w' steps,
      @use_command Demo.utils_failing_formatter "p" "0001" None Demo.clean
      = (Raise (OtherError "CalledProcessError" "formatter exited with 1"), w')
      ∧ trace w' = trace Demo.clean ++ steps
      ∧ @use_events Demo.utils_failing_formatter Demo.settings "p"
          (effective_version "0001" None)
          ".mirascope/versions/p/0001_p.py" "prompt = 'one'"
        = steps
            ++ [EvUpdateVersionFile (pointer_path Demo.settings "p")
                  [("current_revision", effective_version "0001" None)]]
      ∧ fs w' !! working_path Demo.settings "p" = Some "prompt = 'one'"
      ∧ fs w' !! pointer_path Demo.settings "p"
        = fs Demo.clean !! pointer_path Demo.settings "p"
      ∧ Demo.read_pointer (pointer_path Demo.settings "p") (fs w')
        = Demo.read_pointer (pointer_path Demo.settings "p") (fs Demo.clean).
Proof.
  split; [apply DemoFacts.pointer_file_spec|].
  split; [apply DemoFacts.formatter_spec_failing|].
  split; [by_running|].
  apply (use_not_atomic (U := Demo.utils_failing_formatter)
           "p" "0001" None Demo.clean Demo.settings None
           ".mirascope/versions/p/0001_p.py" "prompt = 'one'" "prompt = 'one'"
           (OtherError "CalledProcessError" "formatter exited with 1")
           (<[ "prompts/p.py" := "prompt = 'one'" ]>
              (<[ "prompts/p.py" := "" ]> (fs Demo.clean)))
           (DemoFacts.pointer_file_spec _) DemoFacts.formatter_spec_failing);
    by_running.
Defined.

(** [add p] on the clean tree: nothing to commit. *)
Lemma add_no_changes_clean :
  Demo.status Demo.settings "p" (fs Demo.clean) = Ok None
  ∧ ∃ w' steps,
      Demo.add "p" Demo.clean = (Ok None, w')
      ∧ fs w' = fs Demo.clean
      ∧ stdout w' = stdout Demo.clean ++ ["No changes detected."]
      ∧ trace w' = trace Demo.clean ++ steps
      ∧ existsb touches_files steps = false.
Proof.
  split; [by_running|].
  apply (add_no_changes (U := Demo.utils) "p" Demo.clean Demo.settings None);
    by_running.
Defined.


(* ===================================================================== *)
(** ** More on strings and snapshot names *)
(* ===================================================================== *)

Lemma string_length_app (a b : string) :
  String.length (a +:+ b) = (String.length a + String.length b)%nat.
Proof. induction a as [|c a IH]; simpl; [done | by rewrite IH]. Qed.

Lemma substring_prefix_app (a b : string) :
  substring 0 (String.length a) (a +:+ b) = a.
Proof.
  induction a as [|c a IH]; simpl.
  - by destruct b.
  - by rewrite IH.
Qed.

Lemma substring_length (s : string) (n m : nat) :
  (n + m ≤ String.length s)%nat → String.length (substring n m s) = m.
Proof.
  revert n m. induction s as [|c s IH]; intros n m Hle; simpl in *.
  - destruct n, m; simpl; lia.
  - destruct n as [|n].
    + destruct m as [|m]; simpl; [done|]. rewrite IH; lia.
    + apply IH. lia.
Qed.

(** Without a tab there is nothing for [str.expandtabs] to expand. *)
Lemma expandtabs_no_tab (tabsize : nat) (s : string) :
  Py.contains (String Py.TAB "") s = false →
  ∀ col, Py.expandtabs_from tabsize col s = s.
Proof.
  induction s as [|c s IH]; intros Hno col; simpl; [done|].
  simpl in Hno. apply orb_false_iff in Hno as [Hhead Htail].
  destruct (Ascii.eqb_spec c Py.TAB) as [->|Hc].
  - exfalso. simpl in Hhead. by destruct s.
  - by rewrite IH.
Qed.

(** X9. The slices the completion helpers take of a snapshot name undo
    its construction: from [<revision>_<alias>.py], with a revision of
    four characters, [file[:4]] is the revision and [file[5:-3]] is the
    alias, whatever characters the alias is made of. *)
Theorem snapshot_name_slices (revision alias : string) :
  String.length revision = 4 →
  Py.slice_to_4 (snapshot_name revision alias) = revision
  ∧ Py.slice_5_to_minus_3 (snapshot_name revision alias) = alias.
Proof.
  destruct revision as [|a [|b [|c [|d [|e rest]]]]]; try discriminate.
  intros _. unfold Py.slice_to_4, Py.slice_5_to_minus_3, snapshot_name.
  split.
  - reflexivity.
  - simpl. change ("" +:+ alias +:+ ".py") with (alias +:+ ".py").
    rewrite string_length_app. simpl.
    replace (String.length alias + 3 - 3)%nat with (String.length alias) by lia.
    apply substring_prefix_app.
Qed.

(** A file name of more than eight characters carries a non-empty alias. *)
Lemma slice_5_to_minus_3_nonempty (file : string) :
  (8 < String.length file)%nat → Py.slice_5_to_minus_3 file ≠ "".
Proof.
  intros Hlen Hempty. unfold Py.slice_5_to_minus_3 in Hempty.
  assert (String.length (substring 5 (String.length file - 3 - 5) file)
          = String.length file - 3 - 5) as Hsub
    by (apply substring_length; lia).
  rewrite Hempty in Hsub. simpl in Hsub. lia.
Qed.

(* ===================================================================== *)
(** ** The completion helpers of [use.py] *)
(* ===================================================================== *)

Section Completion.

Context {U : CliUtils}.

Lemma revisions_of_alias (alias : string) (entries : list (string * string)) :
  Forall (λ e, String.length (fst e) = 4) entries →
  List.map Py.slice_to_4
    (List.filter (λ file, String.eqb (Py.slice_5_to_minus_3 file) alias)
       (List.map (λ e, snapshot_name (fst e) (snd e)) entries))
  = List.map fst (List.filter (λ e, String.eqb (snd e) alias) entries).
Proof.
  induction 1 as [|[revision name] entries Hlen _ IH]; [done|].
  cbn [List.map List.filter fst snd] in *.
  destruct (snapshot_name_slices revision name Hlen) as [Hrev Halias].
  rewrite Halias.
  destruct (String.eqb name alias); cbn [List.map fst]; by rewrite ?Hrev, IH.
Qed.

Lemma aliases_other_than (file_name : string) (entries : list (string * string)) :
  Forall (λ e, String.length (fst e) = 4) entries →
  List.map Py.slice_5_to_minus_3
    (List.filter
       (λ file, negb (String.eqb (Py.slice_5_to_minus_3 file) file_name))
       (List.map (λ e, snapshot_name (fst e) (snd e)) entries))
  = List.map snd
      (List.filter (λ e, negb (String.eqb (snd e) file_name)) entries).
Proof.
  induction 1 as [|[revision name] entries Hlen _ IH]; [done|].
  cbn [List.map List.filter fst snd] in *.
  destruct (snapshot_name_slices revision name Hlen) as [Hrev Halias].
  rewrite Halias.
  destruct (negb (String.eqb name file_name)); cbn [List.map snd];
    by rewrite ?Halias, IH.
Qed.

Lemma revisions_of_all (entries : list (string * string)) :
  Forall (λ e, String.length (fst e) = 4) entries →
  List.map Py.slice_to_4 (List.map (λ e, snapshot_name (fst e) (snd e)) entries)
  = List.map fst entries.
Proof.
  induction 1 as [|[revision name] entries Hlen _ IH]; [done|].
  cbn [List.map fst snd] in *.
  destruct (snapshot_name_slices revision name Hlen) as [Hrev _].
  by rewrite Hrev, IH.
Qed.

(** X10. On a versions directory whose files are snapshots
    [<revision>_<alias>.py] with four-character revisions,
    [version_autocomplete] offers exactly the revisions of the snapshots
    that carry the alias typed so far, in directory order. *)
Theorem version_autocomplete_revisions params w s entries :
  get_user_mirascope_settings (fs w) = Ok s →
  find_file_names
    (versions_directory s (params_get params "prompt_file_name")) (fs w)
  = Ok (List.map (λ e, snapshot_name (fst e) (snd e)) entries) →
  Forall (λ e, String.length (fst e) = 4) entries →
  fst (version_autocomplete params w)
  = Ok (List.map fst
          (List.filter (λ e, String.eqb (snd e) (params_get params "alias"))
             entries)).
Proof.
  intros Hs Hfiles Hlen.
  unfold version_autocomplete, version_files. run_cmd.
  known Hs. fold (versions_directory s (params_get params "prompt_file_name")).
  known Hfiles. cbn [fst]. f_equal. by apply revisions_of_alias.
Qed.

(** X11. On such a directory [prompt_file_name] offers first the aliases
    of the snapshots whose alias is not the prompt's own name, then the
    revision of every snapshot, both in directory order. *)
Theorem prompt_file_name_options params w s entries :
  get_user_mirascope_settings (fs w) = Ok s →
  find_file_names
    (versions_directory s (params_get params "prompt_file_name")) (fs w)
  = Ok (List.map (λ e, snapshot_name (fst e) (snd e)) entries) →
  Forall (λ e, String.length (fst e) = 4) entries →
  fst (prompt_file_name params w)
  = Ok (List.map snd
          (List.filter
             (λ e, negb (String.eqb (snd e) (params_get params "prompt_file_name")))
             entries)
        ++ List.map fst entries).
Proof.
  intros Hs Hfiles Hlen.
  unfold prompt_file_name, version_files. run_cmd.
  known Hs. fold (versions_directory s (params_get params "prompt_file_name")).
  known Hfiles. cbn [fst]. f_equal.
  by rewrite aliases_other_than, revisions_of_all.
Qed.

(** X12. While no alias has been typed (the completion context has no
    [alias] entry), [version_autocomplete] matches on the empty alias, so
    it offers nothing when every file name in the directory is longer than
    eight characters, as every snapshot name with a non-empty alias is. *)
Theorem version_autocomplete_without_alias params w s files :
  get_user_mirascope_settings (fs w) = Ok s →
  find_file_names
    (versions_directory s (params_get params "prompt_file_name")) (fs w)
  = Ok files →
  params !! "alias" = None →
  Forall (λ file, (8 < String.length file)%nat) files →
  fst (version_autocomplete params w) = Ok [].
Proof.
  intros Hs Hfiles Hnone Hlong.
  unfold version_autocomplete, version_files. run_cmd.
  known Hs. fold (versions_directory s (params_get params "prompt_file_name")).
  known Hfiles. cbn [fst]. f_equal.
  unfold params_get at 1. rewrite Hnone. cbn [default from_option].
  clear Hfiles.
  induction Hlong as [|file files Hfile _ IH]; [done|].
  cbn [List.filter].
  apply slice_5_to_minus_3_nonempty in Hfile.
  apply String.eqb_neq in Hfile. rewrite Hfile. exact IH.
Qed.

End Completion.

(* ===================================================================== *)
(** ** Every run of [use_command] *)
(* ===================================================================== *)

Section UseEveryRun.

Context {U : CliUtils}.

(** Where a run of [use_command] can end, and what it leaves: the steps it
    took are the first [k] steps of a checkout; up to the lookup and the
    reading of the snapshot the files are as they were; a run that raises
    printed nothing; a run that returns took the drift exit or ran to the
    end. *)
Lemma use_command_outcomes name alias version w :
  ∃ s target rendered k f out,
    snd (use_command name alias version w)
    = {| fs := f;
         stdout := stdout w ++ out;
         trace := trace w
                    ++ take k (use_events s name (effective_version alias version)
                                 target rendered) |}
    ∧ k ∈ [1; 2; 3; 4; 6; 8; 9]
    ∧ ((2 ≤ k)%nat → get_user_mirascope_settings (fs w) = Ok s)
    ∧ ((k ≤ 4)%nat → f = fs w)
    ∧ (k = 6 → f = <[working_path s name := ""]> (fs w))
    ∧ match fst (use_command name alias version w) with
      | Raise _ => out = []
      | Ok r =>
          r = None
          ∧ ((k = 2
              ∧ out = [ changes_detected;
                        "    mirascope add " +:+ Py.expandtabs_from 4 18 name ]
              ∧ ∃ used,
                  get_user_mirascope_settings (fs w) = Ok s
                  ∧ check_status s name (fs w) = Ok used
                  ∧ Py.truthy_opt used = true)
             ∨ (k = 9
                ∧ out = ["Using " +:+ target]
                ∧ ∃ used,
                    get_user_mirascope_settings (fs w) = Ok s
                    ∧ check_status s name (fs w) = Ok used
                    ∧ Py.truthy_opt used = false))
      end.
Proof.
  unfold use_command. run_cmd.
  destruct (get_user_mirascope_settings (fs w)) as [s|e] eqn:Hs;
    cbn [fs stdout trace fst snd].
  2: { exists {| mirascope_location := ""; auto_tag := false;
                 version_file_name := ""; prompts_location := "";
                 versions_location := "" |}, "", "", 1, (fs w), [].
       rewrite app_nil_r. repeat split; first [done | set_solver | lia]. }
  fold (versions_directory s name). fold (working_path s name).
  fold (pointer_path s name).
  destruct (check_status s name (fs w)) as [used|e] eqn:Hc;
    cbn [fs stdout trace fst snd].
  2: { exists s, "", "", 2, (fs w), []. rewrite app_nil_r, <- !app_assoc.
       repeat split; first [done | set_solver | lia]. }
  destruct (Py.truthy_opt used) eqn:Hd; cbn [fs stdout trace fst snd].
  { exists s, "", "", 2, (fs w),
      [ changes_detected; "    mirascope add " +:+ Py.expandtabs_from 4 18 name ].
    rewrite <- !app_assoc.
    repeat split; try first [done | set_solver | lia].
    all: left; repeat split; try done; by exists used. }
  destruct (find_prompt_path _ _ _) as [[target|]|e] eqn:Hf;
    cbn [fs stdout trace fst snd].
  2, 3: exists s, "", "", 3, (fs w), []; rewrite app_nil_r, <- !app_assoc;
        repeat split; first [done | set_solver | lia].
  destruct (fs w !! target) as [content|] eqn:Hr; cbn [fs stdout trace fst snd].
  2: { exists s, target, "", 4, (fs w), []. rewrite app_nil_r, <- !app_assoc.
       repeat split; first [done | set_solver | lia]. }
  destruct (write_prompt_to_template _ _ _) as [rendered|e] eqn:Hw;
    cbn [fs stdout trace fst snd].
  2: { exists s, target, "", 6, (<[working_path s name := ""]> (fs w)), [].
       rewrite app_nil_r, <- !app_assoc.
       repeat split; first [done | set_solver | lia]. }
  rewrite working_path_truthy.
  destruct (run_format_command _ _) as [[[]|e] f1] eqn:Hfmt;
    cbn [fs stdout trace fst snd].
  2: { exists s, target, rendered, 8, f1, []. rewrite app_nil_r, <- !app_assoc.
       repeat split; first [done | set_solver | lia]. }
  destruct (update_version_text_file _ _ _) as [[[]|e] f2] eqn:Hu;
    cbn [fs stdout trace fst snd].
  - exists s, target, rendered, 9, f2, ["Using " +:+ target].
    rewrite <- !app_assoc.
    repeat split; try first [done | set_solver | lia].
    all: right; repeat split; try done; by exists used.
  - exists s, target, rendered, 9, f2, []. rewrite app_nil_r, <- !app_assoc.
    repeat split; first [done | set_solver | lia].
Qed.

End UseEveryRun.

Section UseExtras.

Context {U : CliUtils}.

(** X1. For a prompt name without a tab character the suggestion Use prints
    on drift is exactly four spaces, [mirascope add] and the name:
    [expandtabs(4)] only turns the leading tab into the indentation. *)
Theorem use_suggestion_plain_name name alias version w s used :
  get_user_mirascope_settings (fs w) = Ok s →
  check_status s name (fs w) = Ok used →
  Py.truthy_opt used = true →
  Py.contains (String Py.TAB "") name = false →
  stdout (snd (use_command name alias version w))
  = stdout w ++ [changes_detected; "    mirascope add " +:+ name].
Proof.
  intros Hs Hc Hd Hplain.
  rewrite (use_command_drift _ alias version _ _ _ Hs Hc Hd). cbn [snd stdout].
  by rewrite (expandtabs_no_tab 4 name Hplain 18).
Qed.

(** X2. A run of Use that raises has printed nothing: the message of a
    failure travels in the exception only. *)
Theorem use_failure_prints_nothing name alias version w e :
  fst (use_command name alias version w) = Raise e →
  stdout (snd (use_command name alias version w)) = stdout w.
Proof.
  intros Hraise.
  destruct (use_command_outcomes name alias version w)
    as (s & target & rendered & k & f & out & Hw & _ & _ & _ & _ & Hout).
  rewrite Hraise in Hout. subst out.
  rewrite Hw. cbn [stdout]. apply app_nil_r.
Qed.

(** X3. A run of Use that never opened the working prompt for writing
    left every file as it was, however it ended: a failing settings source,
    status check or lookup, an unknown revision, a snapshot that cannot be
    read, and the drift exit all leave the file system untouched. *)
Theorem use_no_write_no_change name alias version w steps :
  trace (snd (use_command name alias version w)) = trace w ++ steps →
  (∀ path, EvOpenWrite path ∉ steps) →
  fs (snd (use_command name alias version w)) = fs w.
Proof.
  intros Htrace Hnone.
  destruct (use_command_outcomes name alias version w)
    as (s & target & rendered & k & f & out & Hw & Hk & _ & Hearly & _ & _).
  rewrite Hw in Htrace |- *. cbn [trace fs] in *.
  apply app_inv_head in Htrace. subst steps.
  assert (EvOpenWrite (working_path s name)
          ∈ take k (use_events s name (effective_version alias version)
                      target rendered) → False) as Habsurd by apply Hnone.
  decompose_list_elem_of; try (apply Hearly; lia);
    exfalso; apply Habsurd; cbn [firstn use_events]; set_solver.
Qed.

(** X4. When the renderer raises, Use raises the same exception and the
    working prompt is left empty: the file is opened with ["w+"], and so
    truncated, before the text to write is rendered. Nothing else has
    changed and nothing was printed. *)
Theorem use_renderer_failure_truncates name alias version w s used target content e :
  get_user_mirascope_settings (fs w) = Ok s →
  check_status s name (fs w) = Ok used →
  Py.truthy_opt used = false →
  find_prompt_path (versions_directory s name)
    (effective_version alias version) (fs w) = Ok (Some target) →
  fs w !! target = Some content →
  write_prompt_to_template content USE
    (<[working_path s name := ""]> (fs w)) = Raise e →
  fst (use_command name alias version w) = Raise e
  ∧ fs (snd (use_command name alias version w))
    = <[working_path s name := ""]> (fs w)
  ∧ stdout (snd (use_command name alias version w)) = stdout w.
Proof.
  intros Hs Hc Hd Hf Hr Hw.
  unfold use_command. run_cmd.
  known Hs. known Hc. known Hd.
  fold (versions_directory s name). fold (working_path s name).
  known Hf. known Hr. known Hw. done.
Qed.

(** X5. In every run of Use the pointer file is updated at most once and
    only as the last step of a complete checkout: if the update happened,
    the run read the snapshot, wrote the working prompt and ran the
    formatter before it, in that order. *)
Theorem use_update_is_last name alias version w steps path updates :
  trace (snd (use_command name alias version w)) = trace w ++ steps →
  EvUpdateVersionFile path updates ∈ steps →
  ∃ s target rendered,
    steps = use_events s name (effective_version alias version) target rendered.
Proof.
  intros Htrace Hin.
  destruct (use_command_outcomes name alias version w)
    as (s & target & rendered & k & f & out & Hw & Hk & _ & _ & _ & _).
  rewrite Hw in Htrace. cbn [trace] in Htrace.
  apply app_inv_head in Htrace. subst steps.
  exists s, target, rendered.
  decompose_list_elem_of; subst k; cbn [firstn use_events] in *;
    first [done | by decompose_list_elem_of].
Qed.

(** X6. Whenever Use has written the working prompt, its next step was the
    formatter on that same file: the test [if prompt_file_path:] never
    skips it, since the path of the working prompt is never empty. *)
Theorem use_write_then_format name alias version w steps path text :
  trace (snd (use_command name alias version w)) = trace w ++ steps →
  EvWrite path text ∈ steps →
  ∃ before after, steps = before ++ EvWrite path text :: EvFormat path :: after.
Proof.
  intros Htrace Hin.
  destruct (use_command_outcomes name alias version w)
    as (s & target & rendered & k & f & out & Hw & Hk & _ & _ & _ & _).
  rewrite Hw in Htrace. cbn [trace] in Htrace.
  apply app_inv_head in Htrace. subst steps.
  decompose_list_elem_of; subst k; cbn [firstn use_events] in *;
    decompose_list_elem_of; simplify_eq.
  - by eexists [_; _; _; _; _; _], [].
  - by eexists [_; _; _; _; _; _], [_].
Qed.

(** X7. Use takes its drift exit exactly when the status check returns a
    non-empty string: [None] and the empty string both count as no drift,
    and the drift message is printed in no other case. *)
Theorem use_drift_exit_iff name alias version w s used out :
  get_user_mirascope_settings (fs w) = Ok s →
  check_status s name (fs w) = Ok used →
  stdout (snd (use_command name alias version w)) = stdout w ++ out →
  changes_detected ∈ out ↔ Py.truthy_opt used = true.
Proof.
  intros Hs Hc Hout. split.
  - intros Hin.
    destruct (use_command_outcomes name alias version w)
      as (s' & target & rendered & k & f & out' & Hw & _ & _ & _ & _ & Hcase).
    rewrite Hw in Hout. cbn [stdout] in Hout.
    apply app_inv_head in Hout. subst out'.
    destruct (fst (use_command name alias version w)) as [r|e].
    + destruct Hcase as [_ [(_ & _ & used' & Hs' & Hc' & Hd)|(_ & -> & _)]].
      * rewrite Hs in Hs'. injection Hs' as <-.
        rewrite Hc in Hc'. by injection Hc' as <-.
      * apply list_elem_of_singleton in Hin. discriminate.
    + subst out. by apply elem_of_nil in Hin.
  - intros Hd.
    rewrite (use_command_drift _ alias version _ _ _ Hs Hc Hd) in Hout.
    cbn [snd stdout] in Hout. apply app_inv_head in Hout. subst out.
    unfold changes_detected. set_solver.
Qed.

(** X8. Whatever the outcome, the only file Use opens for writing, writes
    and formats is the working prompt of the named prompt, and the only
    pointer file it updates is that prompt's, with the current revision as
    the only key. *)
Theorem use_touches_only_its_prompt name alias version w s steps :
  get_user_mirascope_settings (fs w) = Ok s →
  trace (snd (use_command name alias version w)) = trace w ++ steps →
  ∀ ev, ev ∈ steps →
    match ev with
    | EvOpenWrite path | EvWrite path _ | EvFormat path =>
        path = working_path s name
    | EvUpdateVersionFile path updates =>
        path = pointer_path s name
        ∧ updates = [(CURRENT_REVISION_KEY, effective_version alias version)]
    | _ => True
    end.
Proof.
  intros Hs Htrace ev Hin.
  destruct (use_command_outcomes name alias version w)
    as (s' & target & rendered & k & f & out & Hw & Hk & Hsettings & _ & _ & _).
  rewrite Hw in Htrace. cbn [trace] in Htrace.
  apply app_inv_head in Htrace. subst steps.
  assert ((2 ≤ k)%nat → s' = s) as Hsame.
  { intros Hle. specialize (Hsettings Hle). rewrite Hs in Hsettings.
    by injection Hsettings. }
  decompose_list_elem_of; subst k; cbn [firstn use_events] in *.
  1: by decompose_list_elem_of; subst ev.
  all: assert (s' = s) as -> by (apply Hsame; lia).
  all: by decompose_list_elem_of; subst ev.
Qed.

End UseExtras.

(* ===================================================================== *)
(** ** The message conversion of the Cohere provider *)
(* ===================================================================== *)

Section CohereFacts.

Variable upper : string → string.

(** The loop, message by message: it appends the conversion of every
    message when all of them are accepted, and raises otherwise. *)
Lemma convert_loop_spec (message_params : list Cohere.MessageParam)
    (converted : list Cohere.ChatMessage) :
  Cohere.convert_loop upper message_params converted
  = if forallb Cohere.convertible message_params
    then Ok (converted ++ List.map (Cohere.convert_one upper) message_params)
    else Raise Cohere.multimodal_error.
Proof.
  revert converted.
  induction message_params as [|[m|[r [text|parts]]] rest IH]; intros converted.
  - cbn. by rewrite app_nil_r.
  - cbn. rewrite IH. destruct (forallb _ rest); [|done]. by rewrite <- app_assoc.
  - cbn. rewrite IH. destruct (forallb _ rest); [|done]. by rewrite <- app_assoc.
  - destruct parts as [|[text|kind] [|second more]]; cbn; try done.
    rewrite IH. destruct (forallb _ rest); [|done]. by rewrite <- app_assoc.
Qed.

(** X13. The conversion is all or nothing: it succeeds exactly when every
    message is a chat message, has a text content, or has a content of one
    single text part; otherwise, wherever the offending message stands, it
    raises the one [ValueError] about multimodalities and returns nothing. *)
Theorem convert_message_params_all_or_nothing
    (message_params : list Cohere.MessageParam) :
  (forallb Cohere.convertible message_params = true
   ∧ ∃ converted, Cohere.convert_message_params upper message_params = Ok converted)
  ∨ (forallb Cohere.convertible message_params = false
     ∧ Cohere.convert_message_params upper message_params
       = Raise (ValueError "Cohere does not currently support multimodalities.")).
Proof.
  unfold Cohere.convert_message_params. rewrite convert_loop_spec.
  destruct (forallb _ _); [left | right]; eauto.
Qed.

(** X14. A successful conversion keeps length and positions: the output
    has one message per input message; a chat message is passed on as it
    is, and a base message becomes a chat message with its role in upper
    case and its text (the content itself, or the text of its single
    part) as the message. *)
Theorem convert_message_params_positions
    (message_params : list Cohere.MessageParam)
    (converted : list Cohere.ChatMessage) :
  Cohere.convert_message_params upper message_params = Ok converted →
  length converted = length message_params
  ∧ ∀ i message_param,
      message_params !! i = Some message_param →
      match message_param with
      | Cohere.Chat m => converted !! i = Some m
      | Cohere.Base p =>
          ∃ text,
            (Cohere.content p = Cohere.Str text
             ∨ Cohere.content p = Cohere.Parts [Cohere.TextPart text])
            ∧ converted !! i
              = Some {| Cohere.role := upper (Cohere.param_role p);
                        Cohere.message := text |}
      end.
Proof.
  unfold Cohere.convert_message_params. rewrite convert_loop_spec.
  destruct (forallb _ _) eqn:Hall; [|done].
  intros [= <-]. cbn [app]. split; [by rewrite length_map|].
  intros i message_param Hi.
  assert (Cohere.convertible message_param = true) as Hok.
  { rewrite forallb_forall in Hall. apply Hall.
    apply list_elem_of_In, list_elem_of_lookup. eauto. }
  assert (List.map (Cohere.convert_one upper) message_params !! i
          = Some (Cohere.convert_one upper message_param)) as Hout.
  { change (List.map ?f ?l) with (f <$> l). by rewrite list_lookup_fmap, Hi. }
  destruct message_param as [m|[r [text|parts]]]; [done| |].
  - exists text. split; [by left | done].
  - destruct parts as [|[text|kind] [|second more]]; try done.
    exists text. split; [by right | done].
Qed.

(** X15. A list of chat messages converts to itself: messages that are
    already in Cohere's form are passed on unchanged and in order, so
    converting the result of a conversion changes nothing. *)
Theorem convert_message_params_chat_unchanged
    (converted : list Cohere.ChatMessage) :
  Cohere.convert_message_params upper (List.map Cohere.Chat converted)
  = Ok converted.
Proof.
  unfold Cohere.convert_message_params. rewrite convert_loop_spec.
  assert (forallb Cohere.convertible (List.map Cohere.Chat converted) = true)
    as -> by (by induction converted).
  cbn [app]. f_equal. induction converted as [|m converted IH]; [done|].
  cbn. by rewrite IH.
Qed.

(** X16. Conversion goes through concatenation: a list in two pieces
    fails when a piece fails (with the error of the first piece that does)
    and otherwise converts to the two converted pieces, one after the
    other. *)
Theorem convert_message_params_app
    (first second : list Cohere.MessageParam) :
  Cohere.convert_message_params upper (first ++ second)
  = match Cohere.convert_message_params upper first with
    | Raise e => Raise e
    | Ok converted_first =>
        match Cohere.convert_message_params upper second with
        | Raise e => Raise e
        | Ok converted_second => Ok (converted_first ++ converted_second)
        end
    end.
Proof.
  unfold Cohere.convert_message_params. rewrite !convert_loop_spec.
  rewrite forallb_app.
  destruct (forallb _ first), (forallb _ second); cbn [andb app]; try done.
  by rewrite List.map_app.
Qed.

End CohereFacts.

(* ===================================================================== *)
(** ** The further properties at work *)
(* ===================================================================== *)

(** Closes a membership goal in a list written out. *)
Ltac in_list :=
  repeat first [apply list_elem_of_here | apply list_elem_of_further].

(** Closes a non-membership goal in a list of steps written out. *)
Ltac not_in_steps H :=
  repeat (apply elem_of_cons in H as [H|H]; [discriminate|]);
  by apply elem_of_nil in H.

Lemma use_suggestion_plain_name_p :
  Demo.status Demo.settings "p" (fs Demo.dirty) = Ok (Some "prompts/p.py")
  ∧ Py.contains (String Py.TAB "") "p" = false
  ∧ stdout (snd (Demo.use "p" "0001" None Demo.dirty))
    = stdout Demo.dirty ++ [changes_detected; "    mirascope add " +:+ "p"].
Proof.
  split; [by_running|]. split; [by_running|].
  apply (use_suggestion_plain_name (U := Demo.utils) "p" "0001" None Demo.dirty
           Demo.settings (Some "prompts/p.py")); by_running.
Defined.

Lemma use_failure_prints_nothing_0007 :
  fst (Demo.use "p" "0007" None Demo.clean)
  = Raise (FileNotFoundError
             "Prompt version 0007 not found in .mirascope/versions/p")
  ∧ stdout (snd (Demo.use "p" "0007" None Demo.clean)) = stdout Demo.clean.
Proof.
  split; [by_running|].
  apply (use_failure_prints_nothing (U := Demo.utils) "p" "0007" None Demo.clean
           (FileNotFoundError
              "Prompt version 0007 not found in .mirascope/versions/p"));
    by_running.
Defined.

Lemma use_no_write_no_change_0007 :
  trace (snd (Demo.use "p" "0007" None Demo.clean))
  = trace Demo.clean
      ++ [ EvSettings; EvCheckStatus "p";
           EvFindPromptPath ".mirascope/versions/p" "0007" ]
  ∧ fs (snd (Demo.use "p" "0007" None Demo.clean)) = fs Demo.clean.
Proof.
  split; [by_running|].
  apply (use_no_write_no_change (U := Demo.utils) "p" "0007" None Demo.clean
           [ EvSettings; EvCheckStatus "p";
             EvFindPromptPath ".mirascope/versions/p" "0007" ]).
  - by_running.
  - intros path Hin. not_in_steps Hin.
Defined.

Lemma use_renderer_failure_truncates_0001 :
  Demo.status Demo.settings "p" (fs Demo.clean) = Ok None
  ∧ fs Demo.clean !! "prompts/p.py" = Some "prompt = 'two'"
  ∧ fst (@use_command Faulty.utils_failing_renderer "p" "0001" None Demo.clean)
    = Raise (OtherError "TemplateSyntaxError" "unexpected end of template")
  ∧ fs (snd (@use_command Faulty.utils_failing_renderer "p" "0001" None Demo.clean))
    = <[working_path Demo.settings "p" := ""]> (fs Demo.clean)
  ∧ stdout (snd (@use_command Faulty.utils_failing_renderer "p" "0001" None
                   Demo.clean))
    = stdout Demo.clean.
Proof.
  split; [by_running|]. split; [by_running|].
  apply (use_renderer_failure_truncates (U := Faulty.utils_failing_renderer)
           "p" "0001" None Demo.clean Demo.settings None
           ".mirascope/versions/p/0001_p.py" "prompt = 'one'"
           (OtherError "TemplateSyntaxError" "unexpected end of template"));
    by_running.
Defined.

Lemma use_update_is_last_0001 :
  trace (snd (Demo.use "p" "0001" None Demo.clean))
  = trace Demo.clean
      ++ @use_events Demo.utils Demo.settings "p" "0001"
           ".mirascope/versions/p/0001_p.py" "prompt = 'one'"
  ∧ ∃ s target rendered,
      @use_events Demo.utils Demo.settings "p" "0001"
        ".mirascope/versions/p/0001_p.py" "prompt = 'one'"
      = @use_events Demo.utils s "p" (effective_version "0001" None)
          target rendered.
Proof.
  split; [by_running|].
  apply (use_update_is_last (U := Demo.utils) "p" "0001" None Demo.clean
           (@use_events Demo.utils Demo.settings "p" "0001"
              ".mirascope/versions/p/0001_p.py" "prompt = 'one'")
           ".mirascope/versions/p/version.txt" [("current_revision", "0001")]).
  - by_running.
  - vm_compute. in_list.
Defined.

Lemma use_write_then_format_0001 :
  trace (snd (Demo.use "p" "0001" None Demo.clean))
  = trace Demo.clean
      ++ @use_events Demo.utils Demo.settings "p" "0001"
           ".mirascope/versions/p/0001_p.py" "prompt = 'one'"
  ∧ ∃ before after,
      @use_events Demo.utils Demo.settings "p" "0001"
        ".mirascope/versions/p/0001_p.py" "prompt = 'one'"
      = before
          ++ EvWrite "prompts/p.py" "prompt = 'one'"
             :: EvFormat "prompts/p.py" :: after.
Proof.
  split; [by_running|].
  apply (use_write_then_format (U := Demo.utils) "p" "0001" None Demo.clean
           (@use_events Demo.utils Demo.settings "p" "0001"
              ".mirascope/versions/p/0001_p.py" "prompt = 'one'")
           "prompts/p.py" "prompt = 'one'").
  - by_running.
  - vm_compute. in_list.
Defined.

Lemma use_drift_exit_iff_dirty :
  Demo.status Demo.settings "p" (fs Demo.dirty) = Ok (Some "prompts/p.py")
  ∧ (changes_detected ∈ [changes_detected; "    mirascope add p"]
     ↔ Py.truthy_opt (Some "prompts/p.py") = true).
Proof.
  split; [by_running|].
  apply (use_drift_exit_iff (U := Demo.utils) "p" "0001" None Demo.dirty
           Demo.settings (Some "prompts/p.py")
           [changes_detected; "    mirascope add p"]); by_running.
Defined.

Lemma use_touches_only_its_prompt_0001 :
  trace (snd (Demo.use "p" "0001" None Demo.clean))
  = trace Demo.clean
      ++ @use_events Demo.utils Demo.settings "p" "0001"
           ".mirascope/versions/p/0001_p.py" "prompt = 'one'"
  ∧ ∀ ev,
      ev ∈ @use_events Demo.utils Demo.settings "p" "0001"
             ".mirascope/versions/p/0001_p.py" "prompt = 'one'" →
      match ev with
      | EvOpenWrite path | EvWrite path _ | EvFormat path =>
          path = working_path Demo.settings "p"
      | EvUpdateVersionFile path updates =>
          path = pointer_path Demo.settings "p"
          ∧ updates = [("current_revision", effective_version "0001" None)]
      | _ => True
      end.
Proof.
  split; [by_running|].
  apply (use_touches_only_its_prompt (U := Demo.utils) "p" "0001" None Demo.clean
           Demo.settings); by_running.
Defined.

Lemma snapshot_name_slices_0002_winter :
  String.length "0002" = 4
  ∧ Py.slice_to_4 (snapshot_name "0002" "winter") = "0002"
  ∧ Py.slice_5_to_minus_3 (snapshot_name "0002" "winter") = "winter".
Proof.
  split; [reflexivity|].
  apply (snapshot_name_slices "0002" "winter"). reflexivity.
Defined.

Lemma version_autocomplete_revisions_winter :
  Demo.list_file_names ".mirascope/versions/p" (fs Aliased.world)
  = Ok [snapshot_name "0001" "p"; snapshot_name "0002" "winter"]
  ∧ fst (@version_autocomplete Demo.utils Aliased.typed_alias Aliased.world)
    = Ok (List.map fst
            (List.filter
               (λ e, String.eqb (snd e) (params_get Aliased.typed_alias "alias"))
               [("0001", "p"); ("0002", "winter")])).
Proof.
  split; [by_running|].
  apply (version_autocomplete_revisions (U := Demo.utils) Aliased.typed_alias
           Aliased.world Demo.settings [("0001", "p"); ("0002", "winter")]).
  - by_running.
  - by_running.
  - repeat constructor.
Defined.

Lemma prompt_file_name_options_p :
  Demo.list_file_names ".mirascope/versions/p" (fs Aliased.world)
  = Ok [snapshot_name "0001" "p"; snapshot_name "0002" "winter"]
  ∧ fst (@prompt_file_name Demo.utils Aliased.typed_prompt Aliased.world)
    = Ok (List.map snd
            (List.filter
               (λ e, negb (String.eqb (snd e)
                             (params_get Aliased.typed_prompt "prompt_file_name")))
               [("0001", "p"); ("0002", "winter")])
          ++ List.map fst [("0001", "p"); ("0002", "winter")]).
Proof.
  split; [by_running|].
  apply (prompt_file_name_options (U := Demo.utils) Aliased.typed_prompt
           Aliased.world Demo.settings [("0001", "p"); ("0002", "winter")]).
  - by_running.
  - by_running.
  - repeat constructor.
Defined.

Lemma version_autocomplete_without_alias_p :
  Aliased.typed_prompt !! "alias" = None
  ∧ Demo.list_file_names ".mirascope/versions/p" (fs Aliased.world)
    = Ok ["0001_p.py"; "0002_winter.py"]
  ∧ fst (@version_autocomplete Demo.utils Aliased.typed_prompt Aliased.world)
    = Ok [].
Proof.
  split; [by_running|]. split; [by_running|].
  apply (version_autocomplete_without_alias (U := Demo.utils) Aliased.typed_prompt
           Aliased.world Demo.settings ["0001_p.py"; "0002_winter.py"]).
  - by_running.
  - by_running.
  - by_running.
  - repeat constructor; simpl; lia.
Defined.

Lemma convert_message_params_positions_conversation :
  Cohere.convert_message_params Cohere.upper_ascii Cohere.conversation
  = Ok [ {| Cohere.role := "SYSTEM"; Cohere.message := "You are a librarian." |};
         {| Cohere.role := "USER"; Cohere.message := "Recommend a book." |};
         {| Cohere.role := "ASSISTANT";
            Cohere.message := "The Name of the Wind." |} ]
  ∧ length
      [ {| Cohere.role := "SYSTEM"; Cohere.message := "You are a librarian." |};
        {| Cohere.role := "USER"; Cohere.message := "Recommend a book." |};
        {| Cohere.role := "ASSISTANT";
           Cohere.message := "The Name of the Wind." |} ]
    = length Cohere.conversation
  ∧ ∀ i message_param,
      Cohere.conversation !! i = Some message_param →
      match message_param with
      | Cohere.Chat m =>
          [ {| Cohere.role := "SYSTEM"; Cohere.message := "You are a librarian." |};
            {| Cohere.role := "USER"; Cohere.message := "Recommend a book." |};
            {| Cohere.role := "ASSISTANT";
               Cohere.message := "The Name of the Wind." |} ] !! i = Some m
      | Cohere.Base p =>
          ∃ text,
            (Cohere.content p = Cohere.Str text
             ∨ Cohere.content p = Cohere.Parts [Cohere.TextPart text])
            ∧ [ {| Cohere.role := "SYSTEM";
                   Cohere.message := "You are a librarian." |};
                {| Cohere.role := "USER"; Cohere.message := "Recommend a book." |};
                {| Cohere.role := "ASSISTANT";
                   Cohere.message := "The Name of the Wind." |} ] !! i
              = Some {| Cohere.role := Cohere.upper_ascii (Cohere.param_role p);
                        Cohere.message := text |}
      end.
Proof.
  split; [reflexivity|].
  apply (convert_message_params_positions Cohere.upper_ascii Cohere.conversation).
  reflexivity.
Defined.

Section UseFrame.

Context {U : CliUtils}.

(** X17. Use changes no file but the working prompt and the pointer file
    of the named prompt, however the run ends: every other file, the
    snapshots among them, is as it was. The formatter and the pointer
    update keep to their own file, as their contracts say. *)
Theorem use_preserves_other_files name alias version w s path
    (P : PointerFileSpec U) (F : FormatterSpec U) :
  get_user_mirascope_settings (fs w) = Ok s →
  path ≠ working_path s name →
  path ≠ pointer_path s name →
  fs (snd (use_command name alias version w)) !! path = fs w !! path.
Proof.
  intros Hs Hworking Hpointer.
  unfold use_command. run_cmd. known Hs.
  fold (versions_directory s name). fold (working_path s name).
  fold (pointer_path s name).
  destruct (check_status s name (fs w)) as [used|e]; [|done].
  cbn [fs stdout trace snd].
  destruct (Py.truthy_opt used); [done|].
  destruct (find_prompt_path _ _ _) as [[target|]|e]; [|done|done].
  cbn [fs stdout trace snd].
  destruct (fs w !! target) as [content|]; [|done].
  cbn [fs stdout trace snd].
  destruct (write_prompt_to_template _ _ _) as [rendered|e];
    cbn [fs stdout trace snd].
  2: { by rewrite lookup_insert_ne. }
  rewrite working_path_truthy.
  destruct (run_format_command _ _) as [[[]|e] f1] eqn:Hfmt;
    cbn [fs stdout trace snd] in *.
  2: { rewrite (@run_format_command_frame U F _ _ _ _ Hfmt) by done.
       by rewrite !lookup_insert_ne. }
  destruct (update_version_text_file _ _ _) as [[[]|e] f2] eqn:Hu;
    cbn [fs stdout trace snd] in *.
  all: rewrite (@update_version_text_file_frame U P _ _ _ _ _ Hu) by done.
  all: rewrite (@run_format_command_frame U F _ _ _ _ Hfmt) by done.
  all: by rewrite !lookup_insert_ne.
Qed.

End UseFrame.

Lemma use_preserves_other_files_0001 :
  PointerFileSpec Demo.utils
  ∧ FormatterSpec Demo.utils
  ∧ fs (snd (Demo.use "p" "0001" None Demo.clean))
      !! ".mirascope/versions/p/0002_p.py"
    = fs Demo.clean !! ".mirascope/versions/p/0002_p.py".
Proof.
  split; [apply DemoFacts.pointer_file_spec|].
  split; [apply DemoFacts.formatter_spec_idle|].
  apply (use_preserves_other_files (U := Demo.utils) "p" "0001" None Demo.clean
           Demo.settings ".mirascope/versions/p/0002_p.py"
           (DemoFacts.pointer_file_spec _) DemoFacts.formatter_spec_idle);
    by_running.
Defined.
